(** * shothammer: ShotGrid tag events mirrored as Hammerspace keywords

    A shallow embedding of [src/shothammer.py], the event-daemon plugin whose
    callback [shothammer] resolves the on-disk path of a Shot and applies the
    tags added to / removed from it as [hs keyword] commands.

    The callback works on plain Python data (nested dicts and lists taken
    from the event, [None] where ShotGrid has nothing) and on four external
    collaborators: the toolkit engine (bootstrap, [find_one], [destroy]),
    the path template ([apply_fields]), the file system ([open] +
    [pickle.dump]) and the shell ([subprocess.run]).  The embedding keeps
    both: values are a small universe of Python objects with the dynamic
    errors of subscripting and formatting written out, and the callback is a
    computation in a writer/error monad whose trace lists, in order, every
    call made to a collaborator and every log record.

    Layout: Python values and built-ins; configuration; the effect monad;
    the collaborators; the functions of [shothammer.py] in source order;
    then the lemmas and the theorems. *)

From Stdlib Require Import String Ascii List ZArith Lia Bool DecimalString.
Import ListNotations.
Open Scope string_scope.

(* ===================================================================== *)
(** ** Python values                                                      *)
(* ===================================================================== *)

(** Exception classes that the callback or its collaborators can raise.
    [TankError] is [tank.errors.TankError] (subclasses are identified with
    it, as an [except] clause does); [OtherError] stands for any class the
    callback has no handler for. *)
Inductive exn_class :=
| TypeError | KeyError | AttributeError | ValueError | OSError | TankError
| OtherError (name : string).

Record exn := Exn { exn_cls : exn_class; exn_msg : string }.

Inductive result (A : Type) :=
| Ret (a : A)
| Raise (e : exn).
Arguments Ret {A} a.
Arguments Raise {A} e.

Definition exn_class_eqb (a b : exn_class) : bool :=
  match a, b with
  | TypeError, TypeError | KeyError, KeyError
  | AttributeError, AttributeError | ValueError, ValueError
  | OSError, OSError | TankError, TankError => true
  | OtherError x, OtherError y => String.eqb x y
  | _, _ => false
  end.

(** [datetime.datetime], naive and to the second (what [strftime] with the
    format used by the callback can observe). *)
Record datetime := Datetime {
  dt_year : nat; dt_month : nat; dt_day : nat;
  dt_hour : nat; dt_minute : nat; dt_second : nat
}.

(** The objects an event, a ShotGrid record or a template result is made
    of.  A dict keeps its insertion order (an association list; keys are
    strings, as in the JSON-like records ShotGrid delivers). *)
#[warnings="-register-all"]
Inductive pyval :=
| PNone
| PInt (z : Z)
| PStr (s : string)
| PList (l : list pyval)
| PDict (kvs : list (string * pyval))
| PDatetime (d : datetime).

Definition nl : string := String "010"%char EmptyString.
Definition dquote : ascii := "034"%char.
Definition squote : ascii := "039"%char.
Definition backslash : ascii := "092"%char.

(** *** str() and repr() *)

Definition str_of_Z (z : Z) : string := NilZero.string_of_int (Z.to_int z).
Definition str_of_nat (n : nat) : string := str_of_Z (Z.of_nat n).

Fixpoint contains_char (c : ascii) (s : string) : bool :=
  match s with
  | EmptyString => false
  | String d r => Ascii.eqb c d || contains_char c r
  end.

Definition hex_digit (n : nat) : ascii :=
  nth n (list_ascii_of_string "0123456789abcdef") "0"%char.

(** One character of [repr(s)], [q] being the quote chosen for [s]. *)
Definition repr_char (q c : ascii) : string :=
  let n := nat_of_ascii c in
  if Ascii.eqb c backslash then String backslash (String backslash EmptyString)
  else if Ascii.eqb c q then String backslash (String q EmptyString)
  else if Nat.eqb n 9 then String backslash "t"
  else if Nat.eqb n 10 then String backslash "n"
  else if Nat.eqb n 13 then String backslash "r"
  else if Nat.ltb n 32 || Nat.eqb n 127 then
    String backslash (String "x" (String (hex_digit (n / 16))
                                   (String (hex_digit (n mod 16)) EmptyString)))
  else String c EmptyString.

Fixpoint repr_chars (q : ascii) (s : string) : string :=
  match s with
  | EmptyString => EmptyString
  | String c r => repr_char q c ++ repr_chars q r
  end.

(** [repr] of a str: single quotes, unless the text has a single quote and
    no double quote. *)
Definition repr_str (s : string) : string :=
  let q := if contains_char squote s && negb (contains_char dquote s)
           then dquote else squote in
  String q (repr_chars q s ++ String q EmptyString).

Definition pad2 (n : nat) : string :=
  if Nat.ltb n 10 then "0" ++ str_of_nat n else str_of_nat n.

Definition pad4 (n : nat) : string :=
  if Nat.ltb n 10 then "000" ++ str_of_nat n
  else if Nat.ltb n 100 then "00" ++ str_of_nat n
  else if Nat.ltb n 1000 then "0" ++ str_of_nat n
  else str_of_nat n.

Definition repr_datetime (d : datetime) : string :=
  "datetime.datetime(" ++ str_of_nat (dt_year d) ++ ", "
    ++ str_of_nat (dt_month d) ++ ", " ++ str_of_nat (dt_day d) ++ ", "
    ++ str_of_nat (dt_hour d) ++ ", " ++ str_of_nat (dt_minute d)
    ++ (if Nat.eqb (dt_second d) 0 then EmptyString
        else ", " ++ str_of_nat (dt_second d))
    ++ ")".

Definition str_datetime (d : datetime) : string :=
  pad4 (dt_year d) ++ "-" ++ pad2 (dt_month d) ++ "-" ++ pad2 (dt_day d)
    ++ " " ++ pad2 (dt_hour d) ++ ":" ++ pad2 (dt_minute d)
    ++ ":" ++ pad2 (dt_second d).

Fixpoint py_repr (v : pyval) : string :=
  match v with
  | PNone => "None"
  | PInt z => str_of_Z z
  | PStr s => repr_str s
  | PList l =>
      "[" ++ (fix items (l : list pyval) : string :=
                match l with
                | [] => EmptyString
                | x :: r =>
                    match r with
                    | [] => py_repr x
                    | _ :: _ => py_repr x ++ ", " ++ items r
                    end
                end) l ++ "]"
  | PDict kvs =>
      "{" ++ (fix items (l : list (string * pyval)) : string :=
                match l with
                | [] => EmptyString
                | (k, x) :: r =>
                    match r with
                    | [] => repr_str k ++ ": " ++ py_repr x
                    | _ :: _ => repr_str k ++ ": " ++ py_repr x ++ ", " ++ items r
                    end
                end) kvs ++ "}"
  | PDatetime d => repr_datetime d
  end.

Definition py_str (v : pyval) : string :=
  match v with
  | PStr s => s
  | PDatetime d => str_datetime d
  | _ => py_repr v
  end.

Definition py_type_name (v : pyval) : string :=
  match v with
  | PNone => "NoneType"
  | PInt _ => "int"
  | PStr _ => "str"
  | PList _ => "list"
  | PDict _ => "dict"
  | PDatetime _ => "datetime.datetime"
  end.

(** Truth value, as tested by [if path:]. *)
Definition py_truthy (v : pyval) : bool :=
  match v with
  | PNone => false
  | PInt z => negb (Z.eqb z 0)
  | PStr s => negb (String.eqb s EmptyString)
  | PList l => match l with [] => false | _ => true end
  | PDict kvs => match kvs with [] => false | _ => true end
  | PDatetime _ => true
  end.

(** *** Subscripting, iteration, attributes *)

Fixpoint dict_get (key : string) (kvs : list (string * pyval)) : option pyval :=
  match kvs with
  | [] => None
  | (k, v) :: r => if String.eqb key k then Some v else dict_get key r
  end.

(** [v[key]] for a str key: only a dict can answer; a missing key is a
    KeyError and every other object a TypeError (messages of CPython 3.11). *)
Definition getitem (v : pyval) (key : string) : result pyval :=
  match v with
  | PDict kvs =>
      match dict_get key kvs with
      | Some x => Ret x
      | None => Raise (Exn KeyError (repr_str key))
      end
  | PStr _ => Raise (Exn TypeError "string indices must be integers, not 'str'")
  | PList _ =>
      Raise (Exn TypeError "list indices must be integers or slices, not str")
  | _ => Raise (Exn TypeError
                  ("'" ++ py_type_name v ++ "' object is not subscriptable"))
  end.

Definition rbind {A B} (r : result A) (f : A -> result B) : result B :=
  match r with
  | Ret a => f a
  | Raise e => Raise e
  end.

(** [v[k1][k2]]. *)
Definition getitem2 (v : pyval) (k1 k2 : string) : result pyval :=
  rbind (getitem v k1) (fun x => getitem x k2).

Fixpoint chars_of (s : string) : list pyval :=
  match s with
  | EmptyString => []
  | String c r => PStr (String c EmptyString) :: chars_of r
  end.

(** The elements a [for] or a comprehension walks through. *)
Definition py_iter (v : pyval) : result (list pyval) :=
  match v with
  | PList l => Ret l
  | PDict kvs => Ret (map (fun kv => PStr (fst kv)) kvs)
  | PStr s => Ret (chars_of s)
  | _ => Raise (Exn TypeError
                  ("'" ++ py_type_name v ++ "' object is not iterable"))
  end.

Fixpoint rmap {A B} (f : A -> result B) (l : list A) : result (list B) :=
  match l with
  | [] => Ret []
  | x :: r => rbind (f x) (fun y => rbind (rmap f r) (fun ys => Ret (y :: ys)))
  end.

Fixpoint prefixb (p s : string) : bool :=
  match p, s with
  | EmptyString, _ => true
  | String a p', String b s' => Ascii.eqb a b && prefixb p' s'
  | String _ _, EmptyString => false
  end.

Definition no_attribute (v : pyval) (attr : string) : exn :=
  Exn AttributeError
      ("'" ++ py_type_name v ++ "' object has no attribute '" ++ attr ++ "'").

(** [v.startswith(p)]. *)
Definition startswith (v : pyval) (p : string) : result bool :=
  match v with
  | PStr s => Ret (prefixb p s)
  | _ => Raise (no_attribute v "startswith")
  end.

(** [d.strftime(fmt)] for the directives the callback uses; the year has
    four digits (every platform from the year 1000 on, and the documented
    form below it). *)
Fixpoint strftime_dt (d : datetime) (fmt : string) : string :=
  match fmt with
  | EmptyString => EmptyString
  | String "%" (String c r) =>
      (if Ascii.eqb c "Y" then pad4 (dt_year d)
       else if Ascii.eqb c "m" then pad2 (dt_month d)
       else if Ascii.eqb c "d" then pad2 (dt_day d)
       else if Ascii.eqb c "H" then pad2 (dt_hour d)
       else if Ascii.eqb c "M" then pad2 (dt_minute d)
       else if Ascii.eqb c "S" then pad2 (dt_second d)
       else if Ascii.eqb c "%" then "%"
       else String "%" (String c EmptyString)) ++ strftime_dt d r
  | String c r => String c (strftime_dt d r)
  end.

Definition strftime (v : pyval) (fmt : string) : result string :=
  match v with
  | PDatetime d => Ret (strftime_dt d fmt)
  | _ => Raise (no_attribute v "strftime")
  end.

(** *** The [%] operator on a format string

    [py_mod fmt args] is [fmt % (a1, ..., an)] (for one argument that is
    not a tuple, [fmt % a1]); conversions [%s] and [%i], and [%%].  The
    format is read left to right, so the first bad conversion decides the
    exception. *)
Fixpoint py_mod (fmt : string) (args : list pyval) : result string :=
  match fmt with
  | EmptyString =>
      match args with
      | [] => Ret EmptyString
      | _ :: _ => Raise (Exn TypeError
                           "not all arguments converted during string formatting")
      end
  | String "%" EmptyString => Raise (Exn ValueError "incomplete format")
  | String "%" (String c r) =>
      if Ascii.eqb c "%" then rbind (py_mod r args) (fun t => Ret (String "%" t))
      else if Ascii.eqb c "s" then
        match args with
        | a :: args' => rbind (py_mod r args') (fun t => Ret (py_str a ++ t))
        | [] => Raise (Exn TypeError "not enough arguments for format string")
        end
      else if Ascii.eqb c "i" then
        match args with
        | PInt z :: args' => rbind (py_mod r args') (fun t => Ret (str_of_Z z ++ t))
        | a :: _ => Raise (Exn TypeError
                             ("%i format: a real number is required, not "
                                ++ py_type_name a))
        | [] => Raise (Exn TypeError "not enough arguments for format string")
        end
      else Raise (Exn ValueError "unsupported format character")
  | String c r => rbind (py_mod r args) (fun t => Ret (String c t))
  end.

(** [x in xs] for the project allow-list, which is [None] or a list of
    ints: membership in [None] is a TypeError. *)
Definition py_eq_int (x : pyval) (n : Z) : bool :=
  match x with
  | PInt z => Z.eqb z n
  | _ => false
  end.

Definition py_in (x : pyval) (xs : option (list Z)) : result bool :=
  match xs with
  | None => Raise (Exn TypeError "argument of type 'NoneType' is not iterable")
  | Some l => Ret (existsb (py_eq_int x) l)
  end.


(* ===================================================================== *)
(** ** Configuration ([shothammer_config.ini], read at import)            *)
(* ===================================================================== *)

(** [s.split(sep)] for a one-character separator. *)
Fixpoint split_on (sep : ascii) (s : string) : list string :=
  match s with
  | EmptyString => [EmptyString]
  | String c r =>
      if Ascii.eqb c sep then EmptyString :: split_on sep r
      else match split_on sep r with
           | w :: ws => String c w :: ws
           | [] => [String c EmptyString]
           end
  end.

Definition is_space (c : ascii) : bool :=
  let n := nat_of_ascii c in
  (Nat.leb 9 n && Nat.leb n 13) || (Nat.leb 28 n && Nat.leb n 32).

Fixpoint lstrip (s : string) : string :=
  match s with
  | String c r => if is_space c then lstrip r else s
  | EmptyString => s
  end.

Definition rev_string (s : string) : string :=
  string_of_list_ascii (rev (list_ascii_of_string s)).

Definition strip (s : string) : string :=
  rev_string (lstrip (rev_string (lstrip s))).

Definition digit_of (c : ascii) : option Z :=
  let n := nat_of_ascii c in
  if Nat.leb 48 n && Nat.leb n 57 then Some (Z.of_nat (n - 48)) else None.

(** Decimal digits, a single underscore allowed between two digits. *)
Fixpoint int_digits (s : string) (acc : Z) (after_digit : bool) : option Z :=
  match s with
  | EmptyString => if after_digit then Some acc else None
  | String c r =>
      match digit_of c with
      | Some d => int_digits r (10 * acc + d) true
      | None =>
          if Ascii.eqb c "_" && after_digit then int_digits r acc false
          else None
      end
  end.

(** [int(s)] for a str in base 10 (ASCII digits and white space). *)
Definition py_int (s : string) : result Z :=
  let t := strip s in
  let parsed :=
    match t with
    | String "-" r => option_map Z.opp (int_digits r 0 false)
    | String "+" r => int_digits r 0 false
    | _ => int_digits t 0 false
    end in
  match parsed with
  | Some z => Ret z
  | None => Raise (Exn ValueError
                     ("invalid literal for int() with base 10: " ++ repr_str s))
  end.

(** The module-level globals the callback reads. *)
Record Config := {
  SGHS_NAME : string;
  SGHS_KEY : string;
  SGHS_PROJECTS : option (list Z);
  SGHS_TAG_NAMESPACE : string;
  CAPTURE_LAST_EVENT : bool;
  LAST_EVENT_FILE : string
}.

(** Lines 16-19: the value of [SGHS_PROJECTS] for the text [raw] of the
    option in the ini file. *)
Definition read_SGHS_PROJECTS (raw : string) : result (option (list Z)) :=
  if String.eqb raw EmptyString then Ret None
  else rbind (rmap py_int (split_on "," raw)) (fun l => Ret (Some l)).

(** The filter [registerCallbacks] hands to the daemon with the callback:
    event type and attribute names. *)
Definition eventFilter : list (string * list string) :=
  [("Shotgun_Shot_Change", ["tags"])].

(* ===================================================================== *)
(** ** Effects                                                            *)
(* ===================================================================== *)

(** [EventLogger] is the [logger] argument of the callback, [RootLogger]
    the module-level [logging.debug]. *)
Inductive logger_id := EventLogger | RootLogger.
Inductive level := DEBUG | INFO | WARNING | ERROR.

Inductive effect :=
| EPprint (v : pyval)                       (* PP.pprint(v) *)
| ELog (lg : logger_id) (lvl : level) (msg : string)
| EOpenDump (filename : string) (obj : pyval)
                                            (* open(filename, 'wb'); pickle.dump(obj, F) *)
| EBootstrapEngine (engine_name : string) (entity : pyval)
| EFindOne (entity_type : string) (filters fields : pyval)
| EApplyFields (fields : pyval)
| EDestroy                                  (* engine.destroy() *)
| ERun (cmd : string).                      (* subprocess.run(cmd, shell=True, ...) *)

Definition trace := list effect.
Bind Scope list_scope with trace.

(** A computation: the effects it performed, in order, and how it ended. *)
Definition M (A : Type) : Type := (trace * result A)%type.

Definition ret {A} (a : A) : M A := ([], Ret a).
Definition raise {A} (e : exn) : M A := ([], Raise e).
Definition lift {A} (r : result A) : M A := ([], r).
Definition emit (e : effect) : M unit := ([e], Ret tt).

Definition bind {A B} (m : M A) (f : A -> M B) : M B :=
  match m with
  | (t, Ret a) => match f a with (t', r) => ((t ++ t')%list, r) end
  | (t, Raise e) => (t, Raise e)
  end.

(** [try: m  except cls as e: h e]. *)
Definition try_except {A} (m : M A) (cls : exn_class) (h : exn -> M A) : M A :=
  match m with
  | (t, Ret a) => (t, Ret a)
  | (t, Raise e) =>
      if exn_class_eqb (exn_cls e) cls
      then match h e with (t', r) => ((t ++ t')%list, r) end
      else (t, Raise e)
  end.

Declare Scope py_scope.
Delimit Scope py_scope with py.
Notation "x <- m ;; k" := (bind m (fun x => k))
  (at level 61, m at next level, right associativity) : py_scope.
Notation "m ;; k" := (bind m (fun _ => k))
  (at level 61, right associativity) : py_scope.
Open Scope py_scope.

(** [for x in l: body x]. *)
Fixpoint for_each {A} (l : list A) (body : A -> M unit) : M unit :=
  match l with
  | [] => ret tt
  | x :: r => body x ;; for_each r body
  end.

Definition log (lg : logger_id) (lvl : level) (msg : string) : M unit :=
  emit (ELog lg lvl msg).

(** [repr(e)] of an exception built from one message. *)
Definition class_name (c : exn_class) : string :=
  match c with
  | TypeError => "TypeError" | KeyError => "KeyError"
  | AttributeError => "AttributeError" | ValueError => "ValueError"
  | OSError => "OSError" | TankError => "TankError"
  | OtherError n => n
  end.

Definition repr_exn (e : exn) : string :=
  class_name (exn_cls e) ++ "(" ++ repr_str (exn_msg e) ++ ")".

(* ===================================================================== *)
(** ** The collaborators                                                  *)
(* ===================================================================== *)

(** A toolkit path template: [str(template)] and [apply_fields]. *)
Record Template := {
  template_str : string;
  apply_fields : pyval -> result pyval
}.

(** A bootstrapped engine: [str(engine)], [engine.sgtk.templates] and
    [engine.shotgun.find_one(entity_type, filters=, fields=)]. *)
Record Engine := {
  engine_str : string;
  templates : list (string * Template);
  find_one : string -> pyval -> pyval -> result pyval
}.

(** What the callback's environment answers: the manager and its
    [bootstrap_engine(engine_name, entity=)], whether opening and pickling
    into a file name fails, and the output pair (stdout, stderr, as logged)
    of a shell command; [subprocess.run] is called without [check], so a
    failing command does not raise. *)
Record World := {
  manager_str : string;
  bootstrap_engine : string -> pyval -> result Engine;
  open_dump : string -> option exn;
  run : string -> string * string
}.

Fixpoint templates_get (key : string) (ts : list (string * Template))
  : result Template :=
  match ts with
  | [] => Raise (Exn KeyError (repr_str key))
  | (k, t) :: r => if String.eqb key k then Ret t else templates_get key r
  end.

(* ===================================================================== *)
(** ** shothammer.py                                                      *)
(* ===================================================================== *)

Section Shothammer.

Variable W : World.
Variable config : Config.

(** [logger.<lvl>(fmt % args)]: the message is formatted first. *)
Definition log_fmt (lg : logger_id) (lvl : level) (fmt : string)
    (args : list pyval) : M unit :=
  msg <- lift (py_mod fmt args) ;;
  log lg lvl msg.

(** [subprocess.run(cmd, shell=True, capture_output=True)]. *)
Definition subprocess_run (cmd : string) : M (string * string) :=
  emit (ERun cmd) ;;
  ret (run W cmd).

(** Lines 107-114. *)
Definition capture_event (event : pyval) (filename : string) : M unit :=
  emit (EOpenDump filename event) ;;
  match open_dump W filename with
  | Some e => raise e
  | None => ret tt
  end.

(** Lines 219-228. *)
Definition hs_tag_set (path tag value : pyval) (recursive : bool) : M unit :=
  cmd <- lift (if recursive
               then py_mod "hs tag set -r -e '%s' %s %s" [value; tag; path]
               else py_mod "hs tag set -e '%s' %s %s" [value; tag; path]) ;;
  result <- subprocess_run cmd ;;
  log RootLogger DEBUG "STDOUT:" ;;
  log RootLogger DEBUG (fst result) ;;
  log RootLogger DEBUG "STDERR:" ;;
  log RootLogger DEBUG (snd result).

(** Lines 230-243. *)
Definition hs_keyword_add (path keyword : pyval) (recursive : bool) : M unit :=
  in_namespace <- lift (startswith keyword (SGHS_TAG_NAMESPACE config)) ;;
  if negb in_namespace then
    log RootLogger DEBUG "tag %s not in namespace, skipping"
  else
    cmd <- lift (if recursive
                 then py_mod "hs keyword add -r %s %s" [keyword; path]
                 else py_mod "hs keyword add %s %s" [keyword; path]) ;;
    result <- subprocess_run cmd ;;
    log RootLogger DEBUG "hs_keyword_add()" ;;
    log RootLogger DEBUG "STDOUT:" ;;
    log RootLogger DEBUG (fst result) ;;
    log RootLogger DEBUG "STDERR:" ;;
    log RootLogger DEBUG (snd result).

(** Lines 245-258. *)
Definition hs_keyword_delete (path keyword : pyval) (recursive : bool)
  : M unit :=
  in_namespace <- lift (startswith keyword (SGHS_TAG_NAMESPACE config)) ;;
  if negb in_namespace then
    log RootLogger DEBUG "tag %s not in namespace, skipping"
  else
    cmd <- lift (if recursive
                 then py_mod "hs keyword delete -r %s %s" [keyword; path]
                 else py_mod "hs keyword delete %s %s" [keyword; path]) ;;
    result <- subprocess_run cmd ;;
    log RootLogger DEBUG "hs_keyword_delete()" ;;
    log RootLogger DEBUG "STDOUT:" ;;
    log RootLogger DEBUG (fst result) ;;
    log RootLogger DEBUG "STDERR:" ;;
    log RootLogger DEBUG (snd result).

(** Lines 260-275. *)
Definition project_name_from_event (event : pyval) : result pyval :=
  getitem2 event "project" "name".

Definition is_attribute_change (event : pyval) : result bool :=
  rbind (getitem2 event "meta" "type")
        (fun t => Ret (match t with
                       | PStr s => String.eqb s "attribute_change"
                       | _ => false
                       end)).

Definition get_shot_code (event : pyval) : result pyval :=
  getitem2 event "entity" "name".

Definition get_project_id (event : pyval) : result pyval :=
  getitem2 event "project" "id".

(** [[element['name'] for element in event['meta'][which]]]. *)
Definition tag_names (event : pyval) (which : string) : result (list pyval) :=
  rbind (getitem2 event "meta" which)
        (fun tags => rbind (py_iter tags)
                           (rmap (fun element => getitem element "name"))).

(** Lines 116-129. *)
Definition add_tags (event path : pyval) : M unit :=
  tags_to_add <- lift (tag_names event "added") ;;
  log_fmt EventLogger DEBUG "Tags to add: %s"
          [PStr (py_str (PList tags_to_add))] ;;
  for_each tags_to_add (fun tag =>
    log_fmt EventLogger INFO "Setting keyword %s on path %s" [tag; path] ;;
    hs_keyword_add path tag false).

(** Lines 131-142. *)
Definition remove_tags (event path : pyval) : M unit :=
  tags_to_remove <- lift (tag_names event "removed") ;;
  for_each tags_to_remove (fun tag =>
    log_fmt EventLogger INFO "Removing keyword %s from path %s" [tag; path] ;;
    hs_keyword_delete path tag false).

(** Lines 180-194, one of the three guarded reads: [try: x = read  except
    TypeError as e: logger.warning(...); x = None]. *)
Definition read_or_none (what : string) (read : result pyval) : M pyval :=
  try_except (lift read) TypeError (fun e =>
    log_fmt EventLogger WARNING
            ("TypeError trying to get " ++ what ++ " from full_shot: %s")
            [PStr (repr_exn e)] ;;
    ret PNone).

Definition lookup_filters (shot_id : pyval) : pyval :=
  PList [PList [PStr "id"; PStr "is"; shot_id]].

Definition lookup_fields : pyval :=
  PList [PStr "id"; PStr "type"; PStr "code";
         PStr "sg_episode"; PStr "sg_sequence"].

(** Lines 196-212: the template call, and the capture of the event when
    the template raises a TankError. *)
Definition compose_or_capture (event shot_id : pyval)
    (work_shot_area_template : Template) (Shot Sequence Episode : pyval)
  : M pyval :=
  try_except
    (let field_map :=
       PDict [("Shot", Shot); ("Sequence", Sequence); ("Episode", Episode)] in
     emit (EApplyFields field_map) ;;
     result <- lift (apply_fields work_shot_area_template field_map) ;;
     log_fmt EventLogger DEBUG "Full path: %s" [result] ;;
     ret result)
    TankError
    (fun e =>
       let msg := exn_msg e in
       event_time <- lift (getitem event "created_at") ;;
       date_string <- lift (strftime event_time "%Y-%m-%d_%H-%M-%S") ;;
       filename <- lift (py_mod "shot_id-%s-%s.pickle"
                                [shot_id; PStr date_string]) ;;
       log_fmt EventLogger ERROR
               ("Unable to apply all required fields, saving event as %s"
                  ++ nl ++ "Exception message: %s")
               [PStr filename; PStr msg] ;;
       capture_event event filename ;;
       ret PNone).

(** Lines 145-216. *)
Definition bootstrap_engine_to_shot_path (event : pyval) : M pyval :=
  shot_id <- lift (getitem2 event "entity" "id") ;;
  log_fmt EventLogger DEBUG ("Manager object:" ++ nl ++ "%s")
          [PStr (manager_str W)] ;;
  log_fmt EventLogger DEBUG "Trying to bootstrap shot ID %s" [shot_id] ;;
  let entity := PDict [("type", PStr "Shot"); ("id", shot_id)] in
  emit (EBootstrapEngine "tk-shell" entity) ;;
  engine <- lift (bootstrap_engine W "tk-shell" entity) ;;
  log_fmt EventLogger DEBUG ("Engine object:" ++ nl ++ "%s")
          [PStr (engine_str engine)] ;;
  work_shot_area_template <-
    lift (templates_get "work_shot_area" (templates engine)) ;;
  log_fmt EventLogger DEBUG "work_shot_area_template: %s"
          [PStr (template_str work_shot_area_template)] ;;
  let filters := lookup_filters shot_id in
  let fields := lookup_fields in
  emit (EFindOne "Shot" filters fields) ;;
  full_shot <- lift (find_one engine "Shot" filters fields) ;;
  log_fmt EventLogger DEBUG "Full shot: %s" [PStr (py_str full_shot)] ;;
  Shot <- read_or_none "Shot" (getitem full_shot "code") ;;
  Sequence <- read_or_none "Sequence" (getitem full_shot "sg_sequence") ;;
  Episode <- read_or_none "Episode" (getitem2 full_shot "sg_episode" "name") ;;
  result <- compose_or_capture event shot_id work_shot_area_template
                               Shot Sequence Episode ;;
  emit EDestroy ;;
  ret result.

(** Lines 77-105.  The first component of the guarded block tells whether
    the handler's [return] was taken. *)
Definition shothammer (event : pyval) : M unit :=
  emit (EPprint event) ;;
  log EventLogger DEBUG "None" ;;
  returned <-
    try_except
      (name <- lift (project_name_from_event event) ;;
       log EventLogger DEBUG (py_str name) ;;
       ret false)
      TypeError
      (fun e =>
         code <- lift (get_shot_code event) ;;
         log_fmt EventLogger WARNING
                 "Project is none in event from shot %i" [code] ;;
         ret true) ;;
  if (returned : bool) then ret tt
  else
    (if CAPTURE_LAST_EVENT config
     then capture_event event (LAST_EVENT_FILE config)
     else ret tt) ;;
    path <-
      (project_id <- lift (get_project_id event) ;;
       allowed <- lift (py_in project_id (SGHS_PROJECTS config)) ;;
       if (allowed : bool) then bootstrap_engine_to_shot_path event
       else ret PNone) ;;
    if py_truthy path then
      add_tags event path ;;
      remove_tags event path
    else ret tt.

End Shothammer.

(** *** What a trace shows to each collaborator *)

Definition commands (t : trace) : list string :=
  flat_map (fun e => match e with ERun c => [c] | _ => [] end) t.

Definition lookups (t : trace) : list (string * pyval * pyval) :=
  flat_map (fun e => match e with
                     | EFindOne ty fl fs => [(ty, fl, fs)]
                     | _ => []
                     end) t.

Definition template_calls (t : trace) : list pyval :=
  flat_map (fun e => match e with EApplyFields m => [m] | _ => [] end) t.

Definition captures (t : trace) : list (string * pyval) :=
  flat_map (fun e => match e with EOpenDump f v => [(f, v)] | _ => [] end) t.

Definition bootstraps (t : trace) : list (string * pyval) :=
  flat_map (fun e => match e with
                     | EBootstrapEngine n v => [(n, v)]
                     | _ => []
                     end) t.

Definition destroys (t : trace) : nat :=
  length (flat_map (fun e => match e with EDestroy => [tt] | _ => [] end) t).

Definition logged (lg : logger_id) (lvl : level) (t : trace) : list string :=
  flat_map (fun e => match e with
                     | ELog lg' lvl' m =>
                         match lg, lg', lvl, lvl' with
                         | EventLogger, EventLogger, DEBUG, DEBUG
                         | EventLogger, EventLogger, INFO, INFO
                         | EventLogger, EventLogger, WARNING, WARNING
                         | EventLogger, EventLogger, ERROR, ERROR
                         | RootLogger, RootLogger, DEBUG, DEBUG
                         | RootLogger, RootLogger, INFO, INFO
                         | RootLogger, RootLogger, WARNING, WARNING
                         | RootLogger, RootLogger, ERROR, ERROR => [m]
                         | _, _, _, _ => []
                         end
                     | _ => []
                     end) t.

(* ===================================================================== *)
(** ** A concrete setting: the end-to-end scenario                        *)
(* ===================================================================== *)

Module Scenario.

(** A template that needs the three fields as strings. *)
Definition work_shot_area : Template := {|
  template_str := "<Sgtk TemplatePath work_shot_area>";
  apply_fields := fun m =>
    match getitem m "Shot", getitem m "Sequence", getitem m "Episode" with
    | Ret (PStr c), Ret (PStr s), Ret (PStr e) =>
        Ret (PStr ("/proj/" ++ s ++ "/" ++ e ++ "/" ++ c))
    | _, _, _ =>
        Raise (Exn TankError "Missing required fields for the template")
    end
|}.

(** An engine whose lookup answers [record] whatever is asked. *)
Definition engine_with (record : pyval) : Engine := {|
  engine_str := "<Sgtk Engine tk-shell>";
  templates := [("work_shot_area", work_shot_area)];
  find_one := fun _ _ _ => Ret record
|}.

(** Writing a per-failure capture file fails with [write_error] (if any);
    every other file can be written. *)
Definition world_with (record : pyval) (write_error : option exn) : World := {|
  manager_str := "<TkManager>";
  bootstrap_engine := fun _ _ => Ret (engine_with record);
  open_dump := fun f => if prefixb "shot_id-" f then write_error else None;
  run := fun _ => ("b''", "b''")
|}.

Definition sh010 : pyval :=
  PDict [("type", PStr "Shot"); ("id", PInt 9502); ("code", PStr "sh010");
         ("sg_episode", PDict [("type", PStr "Episode"); ("id", PInt 7);
                               ("name", PStr "ep01")]);
         ("sg_sequence", PStr "seq01")].

Definition config_with (projects : option (list Z)) : Config := {|
  SGHS_NAME := "shothammer";
  SGHS_KEY := "secret";
  SGHS_PROJECTS := projects;
  SGHS_TAG_NAMESPACE := "sghs:";
  CAPTURE_LAST_EVENT := true;
  LAST_EVENT_FILE := "/var/tmp/last_event.pickle"
|}.

Definition tag (name : string) : pyval := PDict [("name", PStr name)].

Definition event_with (project : pyval) (meta_type : string)
    (added removed : list pyval) : pyval :=
  PDict [("project", project);
         ("entity", PDict [("type", PStr "Shot"); ("id", PInt 9502);
                           ("name", PStr "ep01_seq01_sh010")]);
         ("meta", PDict [("type", PStr meta_type);
                         ("attribute_name", PStr "tags");
                         ("added", PList added);
                         ("removed", PList removed)]);
         ("created_at", PDatetime (Datetime 2024 1 2 3 4 5))].

Definition project5 : pyval :=
  PDict [("type", PStr "Project"); ("id", PInt 5); ("name", PStr "demo")].

End Scenario.

(* ===================================================================== *)
(** ** Vocabulary of the statements                                       *)
(* ===================================================================== *)

(** The command line of a keyword operation, [verb] being [add] or
    [delete]. *)
Definition keyword_command (verb : string) (recursive : bool)
    (keyword : string) (path : pyval) : string :=
  "hs keyword " ++ verb ++ (if recursive then " -r " else " ")
    ++ keyword ++ " " ++ py_str path.

(** A command that sets or clears a keyword of the configured namespace. *)
Definition namespaced_command (config : Config) (cmd : string) : Prop :=
  exists verb recursive keyword path,
    prefixb (SGHS_TAG_NAMESPACE config) keyword = true
    /\ (verb = "add" \/ verb = "delete")
    /\ cmd = keyword_command verb recursive keyword path.

(** The name of a per-failure capture file. *)
Definition failure_filename (shot_id : pyval) (d : datetime) : string :=
  "shot_id-" ++ py_str shot_id ++ "-"
    ++ strftime_dt d "%Y-%m-%d_%H-%M-%S" ++ ".pickle".

(** The record fields as the callback derives them from the answer of the
    lookup: a read that raises TypeError gives [None] (lines 180-194). *)
Definition none_on_TypeError (r : result pyval) : result pyval :=
  match r with
  | Ret v => Ret v
  | Raise e => if exn_class_eqb (exn_cls e) TypeError then Ret PNone else Raise e
  end.

Definition record_code (full_shot : pyval) : result pyval :=
  none_on_TypeError (getitem full_shot "code").

Definition record_sequence_name (full_shot : pyval) : result pyval :=
  none_on_TypeError (getitem full_shot "sg_sequence").

Definition record_episode_name (full_shot : pyval) : result pyval :=
  none_on_TypeError (getitem2 full_shot "sg_episode" "name").

Definition field_map (code sequence_name episode_name : pyval) : pyval :=
  PDict [("Shot", code); ("Sequence", sequence_name);
         ("Episode", episode_name)].

(** [d[key] = v] on a dict. *)
Fixpoint dict_set (key : string) (v : pyval) (kvs : list (string * pyval))
  : list (string * pyval) :=
  match kvs with
  | [] => [(key, v)]
  | (k, x) :: r =>
      if String.eqb key k then (k, v) :: r else (k, x) :: dict_set key v r
  end.

(** The event with [event['meta']['type']] replaced by [t] (the event
    itself when it has no [meta] dict). *)
Definition with_meta_type (t : pyval) (event : pyval) : pyval :=
  match event with
  | PDict kvs =>
      match dict_get "meta" kvs with
      | Some (PDict meta) =>
          PDict (dict_set "meta" (PDict (dict_set "type" t meta)) kvs)
      | _ => event
      end
  | _ => event
  end.

(** An effect without the event it carries: what was printed or pickled is
    forgotten, where and that it happened is kept. *)
Definition forget_payload (e : effect) : effect :=
  match e with
  | EPprint _ => EPprint PNone
  | EOpenDump f _ => EOpenDump f PNone
  | _ => e
  end.

Definition is_warning (e : effect) : bool :=
  match e with ELog EventLogger WARNING _ => true | _ => false end.

(** Every command of the trace is a keyword command of the namespace. *)
Definition all_namespaced (config : Config) (t : trace) : Prop :=
  Forall (namespaced_command config) (commands t).

(** A trace without [destroy] and without bootstrap. *)
Definition quiet (t : trace) : Prop := destroys t = 0 /\ bootstraps t = [].

(** How a computation that holds an engine may end: returning, its trace
    ends with the one [destroy], after [k] bootstraps; raising, it has no
    [destroy]. *)
Definition released_on_return (k : nat) {A} (m : M A) : Prop :=
  match snd m with
  | Ret _ => exists t0, fst m = (t0 ++ [EDestroy])%list
                        /\ destroys t0 = 0 /\ length (bootstraps t0) = k
  | Raise _ => destroys (fst m) = 0
  end.


(** The event passes the callback's own tests (lines 87-98): its project
    has a name and an id, and the id is in the allow-list. *)
Definition in_scope (config : Config) (event : pyval) : Prop :=
  (exists name, project_name_from_event event = Ret name)
  /\ exists project_id allow,
       get_project_id event = Ret project_id
       /\ SGHS_PROJECTS config = Some allow
       /\ existsb (py_eq_int project_id) allow = true.

(** Saving the last event, when configured, does not fail. *)
Definition last_event_saved (W : World) (config : Config) : Prop :=
  CAPTURE_LAST_EVENT config = true ->
  open_dump W (LAST_EVENT_FILE config) = None.

(** The collaborators answer: the event names a shot, an engine is
    bootstrapped for it, the engine has the template, and the lookup
    returns [full_shot] (a record or [None]). *)
Definition resolves (W : World) (event shot_id : pyval) (tmpl : Template)
    (full_shot : pyval) : Prop :=
  getitem2 event "entity" "id" = Ret shot_id
  /\ exists engine,
       bootstrap_engine W "tk-shell"
         (PDict [("type", PStr "Shot"); ("id", shot_id)]) = Ret engine
       /\ templates_get "work_shot_area" (templates engine) = Ret tmpl
       /\ find_one engine "Shot" (lookup_filters shot_id) lookup_fields
          = Ret full_shot.

(** The three fields read from the answer of the lookup. *)
Definition record_fields (full_shot code sequence_name episode_name : pyval)
  : Prop :=
  record_code full_shot = Ret code
  /\ record_sequence_name full_shot = Ret sequence_name
  /\ record_episode_name full_shot = Ret episode_name.

(** Lines 103-105 of the callback. *)
Definition reconcile (W : World) (config : Config) (event path : pyval)
  : M unit :=
  if py_truthy path then
    add_tags W config event path ;;
    remove_tags W config event path
  else ret tt.

(** What the callback does before it tests the allow-list, for an event
    with a project (lines 86-94). *)
Definition preamble (config : Config) (event name : pyval) : trace :=
  [EPprint event; ELog EventLogger DEBUG "None";
   ELog EventLogger DEBUG (py_str name)]
  ++ (if CAPTURE_LAST_EVENT config
      then [EOpenDump (LAST_EVENT_FILE config) event] else []).

Definition error_message (filename msg : string) : string :=
  "Unable to apply all required fields, saving event as " ++ filename
    ++ nl ++ "Exception message: " ++ msg.

(** A trace of warnings of the callback's logger only. *)
Definition only_warnings (t : trace) : Prop := forallb is_warning t = true.

(** A trace without lookup and without template call. *)
Definition no_resolution (t : trace) : Prop :=
  lookups t = [] /\ template_calls t = [].

(** A trace without command. *)
Definition no_command (t : trace) : Prop := commands t = [].

(** The characters that separate the directories of a path. *)
Definition separator (c : ascii) : Prop := c = "/"%char \/ c = backslash.

(** Two runs that differ at most in the event printed or pickled. *)
Definition same_run {A} (m m' : M A) : Prop :=
  map forget_payload (fst m) = map forget_payload (fst m') /\ snd m = snd m'.

(* ===================================================================== *)
(** ** More of shothammer.py                                              *)
(* ===================================================================== *)

From Stdlib Require Import DecimalPos.

(** [v.split(sep)] for a one-character separator. *)
Definition py_split (v : pyval) (sep : ascii) : result (list pyval) :=
  match v with
  | PStr s => Ret (map PStr (split_on sep s))
  | _ => Raise (no_attribute v "split")
  end.

(** [l[0]]. *)
Definition first_item (l : list pyval) : result pyval :=
  match l with
  | x :: _ => Ret x
  | [] => Raise (Exn (OtherError "IndexError") "list index out of range")
  end.

(** Lines 277-281 (deprecated in the source, still defined). *)
Definition get_episode_code (event : pyval) : M pyval :=
  name <- lift (getitem2 event "entity" "name") ;;
  elements <- lift (py_split name "_") ;;
  log RootLogger DEBUG (py_str (PList elements)) ;;
  lift (first_item elements).

(** The world [W] with another shell: commands answer as [r] says. *)
Definition with_run (r : string -> string * string) (W : World) : World := {|
  manager_str := manager_str W;
  bootstrap_engine := bootstrap_engine W;
  open_dump := open_dump W;
  run := r
|}.

(** The calls a trace makes to the collaborators, log records left out. *)
Inductive call :=
| CPprint | CCapture | CBootstrap | CFindOne | CApplyFields | CDestroy | CRun.

Definition calls (t : trace) : list call :=
  flat_map (fun e => match e with
                     | EPprint _ => [CPprint]
                     | ELog _ _ _ => []
                     | EOpenDump _ _ => [CCapture]
                     | EBootstrapEngine _ _ => [CBootstrap]
                     | EFindOne _ _ _ => [CFindOne]
                     | EApplyFields _ => [CApplyFields]
                     | EDestroy => [CDestroy]
                     | ERun _ => [CRun]
                     end) t.

(** The call sequences of path resolution: bootstrap, lookup, template
    call, then the capture (on a template error) and the destroy (on
    return); a run that raises stops in between. *)
Definition resolution_protocol : list (list call) :=
  [ [];
    [CBootstrap];
    [CBootstrap; CFindOne];
    [CBootstrap; CFindOne; CApplyFields];
    [CBootstrap; CFindOne; CApplyFields; CDestroy];
    [CBootstrap; CFindOne; CApplyFields; CCapture];
    [CBootstrap; CFindOne; CApplyFields; CCapture; CDestroy] ].

(** The value of a decimal numeral read after [acc]. *)
Fixpoint uint_val (u : Decimal.uint) (acc : Z) : Z :=
  match u with
  | Decimal.Nil => acc
  | Decimal.D0 u => uint_val u (10 * acc + 0)
  | Decimal.D1 u => uint_val u (10 * acc + 1)
  | Decimal.D2 u => uint_val u (10 * acc + 2)
  | Decimal.D3 u => uint_val u (10 * acc + 3)
  | Decimal.D4 u => uint_val u (10 * acc + 4)
  | Decimal.D5 u => uint_val u (10 * acc + 5)
  | Decimal.D6 u => uint_val u (10 * acc + 6)
  | Decimal.D7 u => uint_val u (10 * acc + 7)
  | Decimal.D8 u => uint_val u (10 * acc + 8)
  | Decimal.D9 u => uint_val u (10 * acc + 9)
  end.

(** No white space in the string. *)
Definition no_space (s : string) : Prop :=
  forallb (fun c => negb (is_space c)) (list_ascii_of_string s) = true.

Definition is_log (e : effect) : bool :=
  match e with ELog _ _ _ => true | _ => false end.

(** Same calls and same outcome, whatever was logged. *)
Definition same_calls {A} (m m' : M A) : Prop :=
  filter (fun e => negb (is_log e)) (fst m)
  = filter (fun e => negb (is_log e)) (fst m')
  /\ snd m = snd m'.

(** Every file written in the trace holds [event]. *)
Definition pickles_only (event : pyval) (t : trace) : Prop :=
  Forall (fun c : string * pyval => snd c = event) (captures t).

(** Every bootstrap and every lookup of the trace is for the shot [sid]. *)
Definition for_shot (sid : pyval) (t : trace) : Prop :=
  Forall (fun b => b = ("tk-shell", PDict [("type", PStr "Shot"); ("id", sid)]))
         (bootstraps t)
  /\ Forall (fun l => l = ("Shot", lookup_filters sid, lookup_fields))
            (lookups t).

(** A non-recursive keyword command of the namespace on [path]. *)
Definition keyword_command_on (config : Config) (path : pyval) (cmd : string)
  : Prop :=
  exists verb keyword,
    (verb = "add" \/ verb = "delete")
    /\ prefixb (SGHS_TAG_NAMESPACE config) keyword = true
    /\ cmd = keyword_command verb false keyword path.

Definition all_on_path (config : Config) (path : pyval) (t : trace) : Prop :=
  Forall (keyword_command_on config path) (commands t).

(** Further settings for the scenario. *)
Module Setting.

(** A world built from a template, the answer of the lookup and the
    outcome of writing each file. *)
Definition world_of (tmpl : Template) (record : pyval)
    (dump : string -> option exn) : World := {|
  manager_str := "<TkManager>";
  bootstrap_engine := fun _ _ =>
    Ret {| engine_str := "<Sgtk Engine tk-shell>";
           templates := [("work_shot_area", tmpl)];
           find_one := fun _ _ _ => Ret record |};
  open_dump := dump;
  run := fun _ => ("b''", "b''")
|}.

(** A template that answers the empty path. *)
Definition blank_template : Template := {|
  template_str := "<Sgtk TemplatePath blank>";
  apply_fields := fun _ => Ret (PStr EmptyString)
|}.

(** A template that fails with an error other than a TankError. *)
Definition broken_template : Template := {|
  template_str := "<Sgtk TemplatePath broken>";
  apply_fields := fun _ => Raise (Exn ValueError "bad template")
|}.

Definition read_only (f : string) : option exn :=
  Some (Exn OSError "Read-only file system").

Definition writable (f : string) : option exn := None.

(** A project entry without its name. *)
Definition nameless_project : pyval :=
  PDict [("type", PStr "Project"); ("id", PInt 5)].

(** The shot whose episode is plain text instead of a link. *)
Definition sh020_fields : list (string * pyval) :=
  [("type", PStr "Shot"); ("id", PInt 9502); ("code", PStr "sh020");
   ("sg_episode", PStr "ep01"); ("sg_sequence", PStr "seq01")].

Definition sh020 : pyval := PDict sh020_fields.

(** An event whose entity name is [name]. *)
Definition event_named (name : pyval) : pyval :=
  PDict [("project", PNone);
         ("entity", PDict [("type", PStr "Shot"); ("id", PInt 9502);
                           ("name", name)])].

End Setting.
(* ===================================================================== *)
(** ** The monad and the traces                                           *)
(* ===================================================================== *)

Lemma append_empty_r (s : string) : s ++ EmptyString = s.
Proof. induction s as [|c s IH]; simpl; [reflexivity | now rewrite IH]. Qed.

Lemma append_assoc (a b c : string) : (a ++ b) ++ c = a ++ b ++ c.
Proof. induction a as [|x a IH]; simpl; [reflexivity | now rewrite IH]. Qed.

Lemma contains_char_app (c : ascii) (a b : string) :
  contains_char c (a ++ b) = contains_char c a || contains_char c b.
Proof.
  induction a as [|d a IH]; simpl; [reflexivity|].
  now rewrite IH, orb_assoc.
Qed.

Lemma bind_run {A B} (m : M A) (f : A -> M B) (t : trace) (a : A) :
  m = (t, Ret a) -> bind m f = ((t ++ fst (f a))%list, snd (f a)).
Proof. intros ->. unfold bind. now destruct (f a). Qed.

Lemma bind_raise {A B} (m : M A) (f : A -> M B) (t : trace) (e : exn) :
  m = (t, Raise e) -> bind m f = (t, Raise e).
Proof. now intros ->. Qed.

Lemma bind_lift_ret {A B} (a : A) (f : A -> M B) : bind (lift (Ret a)) f = f a.
Proof. unfold bind, lift. now destruct (f a). Qed.

Lemma bind_emit {B} (e : effect) (f : unit -> M B) :
  bind (emit e) f = (e :: fst (f tt), snd (f tt)).
Proof. unfold bind, emit. now destruct (f tt). Qed.

Lemma try_except_caught {A} (t : trace) (e : exn) (cls : exn_class)
    (h : exn -> M A) :
  exn_class_eqb (exn_cls e) cls = true ->
  try_except (t, Raise e) cls h = ((t ++ fst (h e))%list, snd (h e)).
Proof. intros H. unfold try_except. rewrite H. now destruct (h e). Qed.

Lemma fst_bind_cases {A B} (m : M A) (f : A -> M B) :
  (exists a, snd m = Ret a
             /\ fst (bind m f) = (fst m ++ fst (f a))%list
             /\ snd (bind m f) = snd (f a))
  \/ (exists e, snd m = Raise e
                /\ fst (bind m f) = fst m /\ snd (bind m f) = Raise e).
Proof.
  destruct m as [t [a|e]]; [left; exists a | right; exists e]; simpl.
  - destruct (f a); auto.
  - auto.
Qed.

Lemma fst_try_cases {A} (m : M A) (cls : exn_class) (h : exn -> M A) :
  (fst (try_except m cls h) = fst m /\ snd (try_except m cls h) = snd m)
  \/ (exists e, snd m = Raise e
                /\ exn_class_eqb (exn_cls e) cls = true
                /\ fst (try_except m cls h) = (fst m ++ fst (h e))%list
                /\ snd (try_except m cls h) = snd (h e)).
Proof.
  destruct m as [t [a|e]]; simpl; [now left|].
  destruct (exn_class_eqb (exn_cls e) cls) eqn:E; [right; exists e | now left].
  destruct (h e); auto.
Qed.

(** Properties of traces that hold of the empty trace and of a
    concatenation when they hold of both parts go through [bind],
    [try ... except] and [for]. *)
Section TraceInvariant.

Variable P : trace -> Prop.
Hypothesis P_nil : P [].
Hypothesis P_app : forall t1 t2, P t1 -> P t2 -> P (t1 ++ t2)%list.

Lemma inv_lift {A} (r : result A) : P (fst (lift r)).
Proof. exact P_nil. Qed.

Lemma inv_ret {A} (a : A) : P (fst (ret a)).
Proof. exact P_nil. Qed.

Lemma inv_emit (e : effect) : P [e] -> P (fst (emit e)).
Proof. auto. Qed.

Lemma inv_bind {A B} (m : M A) (f : A -> M B) :
  P (fst m) -> (forall a, P (fst (f a))) -> P (fst (bind m f)).
Proof.
  intros Hm Hf.
  destruct (fst_bind_cases m f) as [(a & _ & -> & _) | (e & _ & -> & _)]; auto.
Qed.

Lemma inv_try {A} (m : M A) (cls : exn_class) (h : exn -> M A) :
  P (fst m) -> (forall e, P (fst (h e))) -> P (fst (try_except m cls h)).
Proof.
  intros Hm Hh.
  destruct (fst_try_cases m cls h) as [[-> _] | (e & _ & _ & -> & _)]; auto.
Qed.

Lemma inv_for_each {A} (l : list A) (body : A -> M unit) :
  (forall x, P (fst (body x))) -> P (fst (for_each l body)).
Proof.
  intros Hb. induction l as [|x l IH]; simpl; [exact P_nil|].
  apply inv_bind; auto.
Qed.

Lemma inv_log_fmt (lg : logger_id) (lvl : level) (fmt : string)
    (args : list pyval) :
  (forall msg, P [ELog lg lvl msg]) -> P (fst (log_fmt lg lvl fmt args)).
Proof.
  intros Hl. unfold log_fmt. apply inv_bind; [apply inv_lift|].
  intros msg. apply Hl.
Qed.

End TraceInvariant.

(** *** Projections of a trace *)

Lemma commands_app (t1 t2 : trace) :
  commands (t1 ++ t2) = (commands t1 ++ commands t2)%list.
Proof. apply flat_map_app. Qed.

Lemma destroys_app (t1 t2 : trace) :
  destroys (t1 ++ t2) = destroys t1 + destroys t2.
Proof. unfold destroys. now rewrite flat_map_app, length_app. Qed.

Lemma bootstraps_app (t1 t2 : trace) :
  bootstraps (t1 ++ t2) = (bootstraps t1 ++ bootstraps t2)%list.
Proof. apply flat_map_app. Qed.

(** Walks through a computation, one [bind], [try] or loop at a time, for
    a trace property [P] with proofs [Pnil] and [Papp] of its closure;
    [leaf] is tried first, on the calls whose trace is already known. *)
Ltac trace_inv P Pnil Papp leaf :=
  repeat first
    [ leaf
    | match goal with
      | |- P (fst (bind _ _)) => apply (inv_bind P Papp)
      | |- P (fst (try_except _ _ _)) => apply (inv_try P Papp)
      | |- P (fst (for_each _ _)) => apply (inv_for_each P Pnil Papp)
      | |- P (fst (log_fmt _ _ _ _)) => apply (inv_log_fmt P Pnil Papp)
      | |- P (fst (lift _)) => exact Pnil
      | |- P (fst (ret _)) => exact Pnil
      | |- P (fst (raise _)) => exact Pnil
      | |- P (fst (emit ?e)) => change (P [e])
      | |- P (fst (log ?lg ?lvl ?msg)) => change (P [ELog lg lvl msg])
      | |- P (fst (if ?b then _ else _)) => destruct b
      | |- P (fst (match ?x with _ => _ end)) => destruct x
      | |- forall _, _ => intro
      end ].

(** *** Keyword operations *)

Lemma add_command_fmt (recursive : bool) (keyword : string) (path : pyval) :
  (if recursive
   then py_mod "hs keyword add -r %s %s" [PStr keyword; path]
   else py_mod "hs keyword add %s %s" [PStr keyword; path])
  = Ret (keyword_command "add" recursive keyword path).
Proof.
  destruct recursive; unfold keyword_command; simpl;
    now rewrite append_empty_r.
Qed.

Lemma delete_command_fmt (recursive : bool) (keyword : string) (path : pyval) :
  (if recursive
   then py_mod "hs keyword delete -r %s %s" [PStr keyword; path]
   else py_mod "hs keyword delete %s %s" [PStr keyword; path])
  = Ret (keyword_command "delete" recursive keyword path).
Proof.
  destruct recursive; unfold keyword_command; simpl;
    now rewrite append_empty_r.
Qed.

Lemma hs_keyword_add_run (W : World) (config : Config) (path : pyval)
    (keyword : string) (recursive : bool) :
  hs_keyword_add W config path (PStr keyword) recursive
  = if prefixb (SGHS_TAG_NAMESPACE config) keyword
    then (let cmd := keyword_command "add" recursive keyword path in
          [ERun cmd;
           ELog RootLogger DEBUG "hs_keyword_add()";
           ELog RootLogger DEBUG "STDOUT:";
           ELog RootLogger DEBUG (fst (run W cmd));
           ELog RootLogger DEBUG "STDERR:";
           ELog RootLogger DEBUG (snd (run W cmd))], Ret tt)
    else ([ELog RootLogger DEBUG "tag %s not in namespace, skipping"], Ret tt).
Proof.
  unfold hs_keyword_add, startswith. rewrite bind_lift_ret.
  destruct (prefixb (SGHS_TAG_NAMESPACE config) keyword); [|reflexivity].
  cbn [negb]. rewrite add_command_fmt, bind_lift_ret. reflexivity.
Qed.

Lemma hs_keyword_delete_run (W : World) (config : Config) (path : pyval)
    (keyword : string) (recursive : bool) :
  hs_keyword_delete W config path (PStr keyword) recursive
  = if prefixb (SGHS_TAG_NAMESPACE config) keyword
    then (let cmd := keyword_command "delete" recursive keyword path in
          [ERun cmd;
           ELog RootLogger DEBUG "hs_keyword_delete()";
           ELog RootLogger DEBUG "STDOUT:";
           ELog RootLogger DEBUG (fst (run W cmd));
           ELog RootLogger DEBUG "STDERR:";
           ELog RootLogger DEBUG (snd (run W cmd))], Ret tt)
    else ([ELog RootLogger DEBUG "tag %s not in namespace, skipping"], Ret tt).
Proof.
  unfold hs_keyword_delete, startswith. rewrite bind_lift_ret.
  destruct (prefixb (SGHS_TAG_NAMESPACE config) keyword); [|reflexivity].
  cbn [negb]. rewrite delete_command_fmt, bind_lift_ret. reflexivity.
Qed.

Lemma all_namespaced_nil (config : Config) : all_namespaced config [].
Proof. constructor. Qed.

Lemma all_namespaced_app (config : Config) (t1 t2 : trace) :
  all_namespaced config t1 -> all_namespaced config t2 ->
  all_namespaced config (t1 ++ t2)%list.
Proof.
  unfold all_namespaced. rewrite commands_app. intros. now apply Forall_app.
Qed.

Lemma hs_keyword_add_namespaced (W : World) (config : Config)
    (path keyword : pyval) (recursive : bool) :
  all_namespaced config (fst (hs_keyword_add W config path keyword recursive)).
Proof.
  destruct keyword as [|z|kw|l|kvs|d]; try (constructor; fail).
  rewrite hs_keyword_add_run.
  destruct (prefixb (SGHS_TAG_NAMESPACE config) kw) eqn:E;
    [|constructor].
  constructor; [|constructor].
  exists "add", recursive, kw, path. auto.
Qed.

Lemma hs_keyword_delete_namespaced (W : World) (config : Config)
    (path keyword : pyval) (recursive : bool) :
  all_namespaced config
    (fst (hs_keyword_delete W config path keyword recursive)).
Proof.
  destruct keyword as [|z|kw|l|kvs|d]; try (constructor; fail).
  rewrite hs_keyword_delete_run.
  destruct (prefixb (SGHS_TAG_NAMESPACE config) kw) eqn:E;
    [|constructor].
  constructor; [|constructor].
  exists "delete", recursive, kw, path. auto.
Qed.

Lemma capture_event_no_command (W : World) (config : Config)
    (event : pyval) (filename : string) :
  all_namespaced config (fst (capture_event W event filename)).
Proof.
  unfold capture_event.
  trace_inv (all_namespaced config) (all_namespaced_nil config)
            (all_namespaced_app config) fail; constructor.
Qed.

Lemma bootstrap_namespaced (W : World) (config : Config) (event : pyval) :
  all_namespaced config (fst (bootstrap_engine_to_shot_path W event)).
Proof.
  unfold bootstrap_engine_to_shot_path, compose_or_capture, read_or_none.
  trace_inv (all_namespaced config) (all_namespaced_nil config)
            (all_namespaced_app config)
            ltac:(idtac; match goal with
                  | |- _ (fst (capture_event _ _ _)) =>
                      apply capture_event_no_command
                  end); constructor.
Qed.

Lemma shothammer_namespaced (W : World) (config : Config) (event : pyval) :
  all_namespaced config (fst (shothammer W config event)).
Proof.
  unfold shothammer, add_tags, remove_tags.
  trace_inv (all_namespaced config) (all_namespaced_nil config)
            (all_namespaced_app config)
            ltac:(idtac; match goal with
                  | |- _ (fst (capture_event _ _ _)) =>
                      apply capture_event_no_command
                  | |- _ (fst (bootstrap_engine_to_shot_path _ _)) =>
                      apply bootstrap_namespaced
                  | |- _ (fst (hs_keyword_add _ _ _ _ _)) =>
                      apply hs_keyword_add_namespaced
                  | |- _ (fst (hs_keyword_delete _ _ _ _ _)) =>
                      apply hs_keyword_delete_namespaced
                  end);
    constructor.
Qed.

(** C8.  A keyword operation on a tag outside the configured namespace
    issues no command and returns normally; on a tag inside it, exactly one
    [hs keyword] command is issued; and every command the callback ever
    issues sets or clears a keyword of the namespace. *)
Theorem keyword_operations_respect_namespace
    (W : World) (config : Config) (path : pyval) (keyword : string)
    (recursive : bool) :
  let in_namespace := prefixb (SGHS_TAG_NAMESPACE config) keyword in
  (snd (hs_keyword_add W config path (PStr keyword) recursive) = Ret tt
   /\ commands (fst (hs_keyword_add W config path (PStr keyword) recursive))
      = if in_namespace
        then [keyword_command "add" recursive keyword path] else [])
  /\ (snd (hs_keyword_delete W config path (PStr keyword) recursive) = Ret tt
      /\ commands (fst (hs_keyword_delete W config path (PStr keyword) recursive))
         = if in_namespace
           then [keyword_command "delete" recursive keyword path] else [])
  /\ (forall event,
        Forall (namespaced_command config)
               (commands (fst (shothammer W config event)))).
Proof.
  intros in_namespace. subst in_namespace.
  rewrite hs_keyword_add_run, hs_keyword_delete_run.
  repeat split;
    try (destruct (prefixb (SGHS_TAG_NAMESPACE config) keyword); reflexivity).
  intros event. exact (shothammer_namespaced W config event).
Qed.

(** *** The engine *)

Lemma quiet_nil : quiet [].
Proof. now split. Qed.

Lemma quiet_app (t1 t2 : trace) : quiet t1 -> quiet t2 -> quiet (t1 ++ t2).
Proof.
  intros [D1 B1] [D2 B2]. split.
  - rewrite destroys_app. lia.
  - now rewrite bootstraps_app, B1, B2.
Qed.

Lemma quiet_bind_released (k : nat) {A B} (m : M A) (f : A -> M B) :
  quiet (fst m) -> (forall a, released_on_return k (f a)) ->
  released_on_return k (bind m f).
Proof.
  intros [D Bt] Hf. unfold released_on_return.
  destruct (fst_bind_cases m f) as [(a & _ & Ef & Es) | (e & _ & Ef & Es)];
    rewrite Ef, Es; [|exact D].
  specialize (Hf a). unfold released_on_return in Hf.
  destruct (snd (f a)).
  - destruct Hf as (t0 & E0 & D0 & B0). exists (fst m ++ t0)%list.
    rewrite E0, app_assoc, destroys_app, bootstraps_app, Bt. repeat split; auto.
    lia.
  - rewrite destroys_app. lia.
Qed.

Lemma bootstrap_then_released {B} (name : string) (entity : pyval)
    (f : unit -> M B) :
  released_on_return 0 (f tt) ->
  released_on_return 1 (bind (emit (EBootstrapEngine name entity)) f).
Proof.
  unfold released_on_return. rewrite bind_emit. simpl.
  destruct (snd (f tt)); [|auto].
  intros (t0 & E0 & D0 & B0).
  exists (EBootstrapEngine name entity :: t0). rewrite E0. simpl.
  repeat split; auto.
Qed.

Lemma destroy_then_return {A} (a : A) :
  released_on_return 0 (emit EDestroy ;; ret a).
Proof. exists []. now repeat split. Qed.

Ltac quiet_steps leaf :=
  trace_inv quiet quiet_nil quiet_app leaf; try (now split).

Lemma capture_event_quiet (W : World) (event : pyval) (filename : string) :
  quiet (fst (capture_event W event filename)).
Proof. unfold capture_event. quiet_steps fail. Qed.

Lemma compose_or_capture_quiet (W : World) (event shot_id : pyval)
    (tmpl : Template) (c s e : pyval) :
  quiet (fst (compose_or_capture W event shot_id tmpl c s e)).
Proof.
  unfold compose_or_capture.
  quiet_steps ltac:(idtac; match goal with
                    | |- _ (fst (capture_event _ _ _)) =>
                        apply capture_event_quiet
                    end).
Qed.

Lemma read_or_none_quiet (what : string) (r : result pyval) :
  quiet (fst (read_or_none what r)).
Proof. unfold read_or_none. quiet_steps fail. Qed.

(** C3, as the code has it.  The engine is destroyed exactly when path
    resolution returns: a returning run (path composed, or composition
    failure captured) bootstraps one engine and ends with its [destroy];
    a run that ends in an exception never destroys the engine. *)
Theorem engine_destroyed_exactly_on_return (W : World) (event : pyval) :
  let m := bootstrap_engine_to_shot_path W event in
  match snd m with
  | Ret _ => exists t0, fst m = (t0 ++ [EDestroy])%list
                        /\ destroys t0 = 0 /\ length (bootstraps t0) = 1
  | Raise _ => destroys (fst m) = 0
  end.
Proof.
  intros m. subst m.
  change (released_on_return 1 (bootstrap_engine_to_shot_path W event)).
  unfold bootstrap_engine_to_shot_path.
  repeat match goal with
    | |- released_on_return 1 (bind (emit (EBootstrapEngine _ _)) _) =>
        apply bootstrap_then_released
    | |- released_on_return 0 (emit EDestroy ;; ret _) =>
        apply destroy_then_return
    | |- released_on_return _ (bind _ _) =>
        apply quiet_bind_released;
        [ quiet_steps ltac:(idtac; match goal with
                            | |- _ (fst (compose_or_capture _ _ _ _ _ _ _)) =>
                                apply compose_or_capture_quiet
                            | |- _ (fst (read_or_none _ _)) =>
                                apply read_or_none_quiet
                            end)
        | intro ]
    end.
Qed.

(** *** Traces made of warnings only *)

Lemma warnings_silent {X} (f : effect -> list X) (t : trace) :
  only_warnings t ->
  (forall msg, f (ELog EventLogger WARNING msg) = []) ->
  flat_map f t = [].
Proof.
  unfold only_warnings. intros Hw Hf.
  induction t as [|e t IH]; simpl; [reflexivity|].
  simpl in Hw. apply andb_prop in Hw. destruct Hw as [He Ht].
  rewrite (IH Ht), app_nil_r.
  destruct e as [| [] [] msg | | | | | |]; try discriminate. apply Hf.
Qed.

Lemma log_fmt_run (lg : logger_id) (lvl : level) (fmt : string)
    (args : list pyval) (msg : string) :
  py_mod fmt args = Ret msg ->
  log_fmt lg lvl fmt args = ([ELog lg lvl msg], Ret tt).
Proof. unfold log_fmt. now intros ->. Qed.

Lemma capture_event_run (W : World) (event : pyval) (filename : string) :
  capture_event W event filename
  = ([EOpenDump filename event],
     match open_dump W filename with
     | Some e => Raise e
     | None => Ret tt
     end).
Proof. unfold capture_event. now destruct (open_dump W filename). Qed.

Lemma warning_fmt (what : string) (x : string) :
  In what ["Shot"; "Sequence"; "Episode"] ->
  py_mod ("TypeError trying to get " ++ what ++ " from full_shot: %s") [PStr x]
  = Ret ("TypeError trying to get " ++ what ++ " from full_shot: " ++ x).
Proof.
  intros [<-|[<-|[<-|[]]]]; simpl; now rewrite append_empty_r.
Qed.

Lemma read_or_none_run (what : string) (r : result pyval) (v : pyval) :
  In what ["Shot"; "Sequence"; "Episode"] ->
  none_on_TypeError r = Ret v ->
  exists ws, read_or_none what r = (ws, Ret v) /\ only_warnings ws.
Proof.
  intros Hw Hr. unfold read_or_none.
  destruct r as [x|e]; cbn [none_on_TypeError] in Hr.
  - injection Hr as ->. exists []. now split.
  - unfold try_except, lift.
    destruct (exn_class_eqb (exn_cls e) TypeError); [|discriminate].
    injection Hr as <-.
    rewrite (log_fmt_run _ _ _ _ _ (warning_fmt what _ Hw)).
    simpl. eexists. split; reflexivity.
Qed.

Lemma lookups_app (t1 t2 : trace) :
  lookups (t1 ++ t2) = (lookups t1 ++ lookups t2)%list.
Proof. apply flat_map_app. Qed.

Lemma template_calls_app (t1 t2 : trace) :
  template_calls (t1 ++ t2) = (template_calls t1 ++ template_calls t2)%list.
Proof. apply flat_map_app. Qed.

Lemma captures_app (t1 t2 : trace) :
  captures (t1 ++ t2) = (captures t1 ++ captures t2)%list.
Proof. apply flat_map_app. Qed.

Lemma logged_app (lg : logger_id) (lvl : level) (t1 t2 : trace) :
  logged lg lvl (t1 ++ t2) = (logged lg lvl t1 ++ logged lg lvl t2)%list.
Proof. apply flat_map_app. Qed.

(** Splitting a trace [e1 :: ... :: (w1 ++ ... ++ rest)] at [rest]. *)
Lemma split_cons (e : effect) (t t0 rest : trace) :
  t = (t0 ++ rest)%list -> e :: t = ((e :: t0) ++ rest)%list.
Proof. now intros ->. Qed.

Lemma split_app (w t t0 rest : trace) :
  t = (t0 ++ rest)%list -> (w ++ t)%list = ((w ++ t0) ++ rest)%list.
Proof. intros ->. apply app_assoc. Qed.

Lemma split_nil (rest : trace) : rest = ([] ++ rest)%list.
Proof. reflexivity. Qed.

Ltac split_trace :=
  repeat first [ eapply split_cons | eapply split_app ]; apply split_nil.

(** The projections of a trace built from conses, concatenations and
    warnings-only segments. *)
Ltac project :=
  unfold commands, lookups, template_calls, captures, bootstraps, destroys,
    logged;
  simpl;
  repeat rewrite flat_map_app;
  repeat match goal with
    | H : only_warnings ?w |- context [flat_map ?f ?w] =>
        rewrite (warnings_silent f w H) by reflexivity
    end;
  simpl.

(** *** Path resolution when the collaborators answer *)

Arguments lookup_filters : simpl never.
Arguments lookup_fields : simpl never.
Arguments read_or_none : simpl never.
Arguments compose_or_capture : simpl never.

Section Resolution.

Variables (W : World) (event shot_id : pyval) (tmpl : Template).
Variables (full_shot code sequence_name episode_name : pyval).
Hypothesis Hres : resolves W event shot_id tmpl full_shot.
Hypothesis Hrec : record_fields full_shot code sequence_name episode_name.

Lemma resolution_run :
  exists t0,
    bootstrap_engine_to_shot_path W event
    = bind (t0, Ret tt)
           (fun _ =>
              result <- compose_or_capture W event shot_id tmpl
                                           code sequence_name episode_name ;;
              emit EDestroy ;; ret result)
    /\ lookups t0 = [("Shot", lookup_filters shot_id, lookup_fields)]
    /\ bootstraps t0
       = [("tk-shell", PDict [("type", PStr "Shot"); ("id", shot_id)])]
    /\ commands t0 = [] /\ template_calls t0 = [] /\ captures t0 = []
    /\ destroys t0 = 0 /\ logged EventLogger ERROR t0 = [].
Proof.
  destruct Hres as (Hshot & engine & Hboot & Htmpl & Hfind).
  destruct Hrec as (Hc & Hs & He).
  destruct (read_or_none_run "Shot" _ _ (or_introl eq_refl) Hc)
    as (w1 & E1 & L1).
  destruct (read_or_none_run "Sequence" _ _ (or_intror (or_introl eq_refl)) Hs)
    as (w2 & E2 & L2).
  destruct (read_or_none_run "Episode" _ _
              (or_intror (or_intror (or_introl eq_refl))) He)
    as (w3 & E3 & L3).
  unfold bootstrap_engine_to_shot_path, log_fmt, lift. cbv zeta.
  rewrite Hshot. simpl. rewrite Hboot. simpl. rewrite Htmpl. simpl.
  rewrite Hfind. simpl. rewrite E1. simpl. rewrite E2. simpl. rewrite E3.
  simpl.
  destruct (bind (compose_or_capture W event shot_id tmpl code sequence_name
                                     episode_name) _) as [tc rc].
  eexists. split; [f_equal; split_trace|].
  repeat split; project; reflexivity.
Qed.

End Resolution.

(** *** The template call *)

Arguments strftime_dt : simpl never.
Arguments capture_event : simpl never.

Lemma strftime_format (d : datetime) :
  strftime_dt d "%Y-%m-%d_%H-%M-%S"
  = pad4 (dt_year d) ++ "-" ++ pad2 (dt_month d) ++ "-" ++ pad2 (dt_day d)
      ++ "_" ++ pad2 (dt_hour d) ++ "-" ++ pad2 (dt_minute d) ++ "-"
      ++ pad2 (dt_second d).
Proof. cbv -[pad4 pad2 append]. now rewrite append_empty_r. Qed.

(** Neither separator of a path occurs in a number or in a date. *)
Lemma uint_no_separator (c : ascii) (u : Decimal.uint) :
  separator c -> contains_char c (NilEmpty.string_of_uint u) = false.
Proof. intros [-> | ->]; induction u; simpl; auto. Qed.

Lemma str_of_Z_no_separator (c : ascii) (z : Z) :
  separator c -> contains_char c (str_of_Z z) = false.
Proof.
  intros Hc. unfold str_of_Z, NilZero.string_of_int, NilZero.string_of_uint.
  destruct (Z.to_int z) as [u|u]; destruct u;
    try (apply (uint_no_separator c _ Hc));
    try (destruct Hc as [-> | ->]; reflexivity);
    change (contains_char c (String "-" (NilEmpty.string_of_uint ?u)))
      with (Ascii.eqb c "-" || contains_char c (NilEmpty.string_of_uint u)).
  all: cbn [contains_char]; rewrite (uint_no_separator c _ Hc);
    destruct Hc as [-> | ->]; reflexivity.
Qed.

Lemma pad2_no_separator (c : ascii) (n : nat) :
  separator c -> contains_char c (pad2 n) = false.
Proof.
  intros Hc. unfold pad2, str_of_nat.
  destruct (Nat.ltb n 10); rewrite ?contains_char_app,
    (str_of_Z_no_separator c _ Hc); destruct Hc as [-> | ->]; reflexivity.
Qed.

Lemma pad4_no_separator (c : ascii) (n : nat) :
  separator c -> contains_char c (pad4 n) = false.
Proof.
  intros Hc. unfold pad4, str_of_nat.
  destruct (Nat.ltb n 10); [|destruct (Nat.ltb n 100);
                              [|destruct (Nat.ltb n 1000)]];
    rewrite ?contains_char_app, (str_of_Z_no_separator c _ Hc);
    destruct Hc as [-> | ->]; reflexivity.
Qed.

Lemma failure_filename_no_separator (c : ascii) (z : Z) (d : datetime) :
  separator c -> contains_char c (failure_filename (PInt z) d) = false.
Proof.
  intros Hc. unfold failure_filename. rewrite strftime_format.
  rewrite !contains_char_app, !pad2_no_separator, pad4_no_separator by exact Hc.
  cbn [py_str py_repr]. rewrite (str_of_Z_no_separator c _ Hc).
  destruct Hc as [-> | ->]; reflexivity.
Qed.

Lemma full_path_fmt (p : pyval) :
  py_mod "Full path: %s" [p] = Ret ("Full path: " ++ py_str p).
Proof. simpl. now rewrite append_empty_r. Qed.

Lemma failure_filename_fmt (shot_id : pyval) (d : datetime) :
  py_mod "shot_id-%s-%s.pickle"
         [shot_id; PStr (strftime_dt d "%Y-%m-%d_%H-%M-%S")]
  = Ret (failure_filename shot_id d).
Proof. reflexivity. Qed.

Lemma error_message_fmt (filename msg : string) :
  py_mod ("Unable to apply all required fields, saving event as %s"
            ++ nl ++ "Exception message: %s") [PStr filename; PStr msg]
  = Ret (error_message filename msg).
Proof. unfold error_message. simpl. now rewrite append_empty_r. Qed.

Lemma compose_returns (W : World) (event shot_id : pyval) (tmpl : Template)
    (c s e p : pyval) :
  apply_fields tmpl (field_map c s e) = Ret p ->
  compose_or_capture W event shot_id tmpl c s e
  = ([EApplyFields (field_map c s e);
      ELog EventLogger DEBUG ("Full path: " ++ py_str p)], Ret p).
Proof.
  intros H. unfold compose_or_capture, field_map in *. cbv zeta.
  rewrite H, bind_lift_ret, (log_fmt_run _ _ _ _ _ (full_path_fmt p)).
  reflexivity.
Qed.

Lemma compose_captures (W : World) (event shot_id : pyval) (tmpl : Template)
    (c s e : pyval) (err : exn) (d : datetime) :
  apply_fields tmpl (field_map c s e) = Raise err ->
  exn_cls err = TankError ->
  getitem event "created_at" = Ret (PDatetime d) ->
  compose_or_capture W event shot_id tmpl c s e
  = ([EApplyFields (field_map c s e);
      ELog EventLogger ERROR
           (error_message (failure_filename shot_id d) (exn_msg err));
      EOpenDump (failure_filename shot_id d) event],
     match open_dump W (failure_filename shot_id d) with
     | Some e' => Raise e'
     | None => Ret PNone
     end).
Proof.
  intros H Hcls Ht. unfold compose_or_capture, field_map in *. cbv zeta.
  rewrite H, bind_emit.
  change (fst (bind (lift (Raise err)) _)) with (@nil effect).
  change (snd (bind (lift (Raise err)) _)) with (@Raise pyval err).
  rewrite try_except_caught by now rewrite Hcls.
  rewrite Ht, bind_lift_ret.
  change (strftime (PDatetime d) "%Y-%m-%d_%H-%M-%S")
    with (Ret (strftime_dt d "%Y-%m-%d_%H-%M-%S")).
  rewrite bind_lift_ret, failure_filename_fmt, bind_lift_ret.
  rewrite (log_fmt_run _ _ _ _ _ (error_message_fmt _ _)).
  rewrite capture_event_run.
  now destruct (open_dump W (failure_filename shot_id d)).
Qed.

(** *** Invariants of the parts of the callback *)

Lemma no_resolution_nil : no_resolution [].
Proof. now split. Qed.

Lemma no_resolution_app (t1 t2 : trace) :
  no_resolution t1 -> no_resolution t2 -> no_resolution (t1 ++ t2).
Proof.
  intros [L1 T1] [L2 T2]. split.
  - now rewrite lookups_app, L1, L2.
  - now rewrite template_calls_app, T1, T2.
Qed.

Lemma no_command_nil : no_command [].
Proof. reflexivity. Qed.

Lemma no_command_app (t1 t2 : trace) :
  no_command t1 -> no_command t2 -> no_command (t1 ++ t2).
Proof. unfold no_command. rewrite commands_app. now intros -> ->. Qed.

Lemma reconcile_no_resolution (W : World) (config : Config)
    (event path : pyval) :
  no_resolution (fst (reconcile W config event path)).
Proof.
  unfold reconcile, add_tags, remove_tags, hs_keyword_add, hs_keyword_delete,
    subprocess_run.
  trace_inv no_resolution no_resolution_nil no_resolution_app fail;
    now split.
Qed.

Lemma compose_template_call (W : World) (event shot_id : pyval)
    (tmpl : Template) (c s e : pyval) :
  exists rest,
    fst (compose_or_capture W event shot_id tmpl c s e)
    = EApplyFields (field_map c s e) :: rest
    /\ no_resolution rest.
Proof.
  unfold compose_or_capture, field_map. cbv zeta.
  match goal with
  | |- context [try_except ?b TankError ?k] => set (body := b); set (h := k)
  end.
  assert (Hb : exists rest,
             fst body = EApplyFields (field_map c s e) :: rest
             /\ no_resolution rest).
  { subst body. rewrite bind_emit. eexists. split; [reflexivity|]. simpl.
    trace_inv no_resolution no_resolution_nil no_resolution_app fail;
      now split. }
  assert (Hh : forall e0, no_resolution (fst (h e0))).
  { intros e0. subst h. cbv beta zeta. unfold capture_event.
    trace_inv no_resolution no_resolution_nil no_resolution_app fail;
      now split. }
  destruct Hb as (rest & Eb & Nb).
  destruct (fst_try_cases body TankError h)
    as [[-> _] | (e0 & _ & _ & -> & _)].
  - exists rest. auto.
  - rewrite Eb. exists (rest ++ fst (h e0))%list.
    split; [reflexivity|]. apply no_resolution_app; auto.
Qed.

Lemma bootstrap_no_command (W : World) (event : pyval) :
  no_command (fst (bootstrap_engine_to_shot_path W event)).
Proof.
  unfold bootstrap_engine_to_shot_path, compose_or_capture, read_or_none,
    capture_event.
  trace_inv no_command no_command_nil no_command_app fail; reflexivity.
Qed.

(** *** The callback on an event in scope *)

Arguments bootstrap_engine_to_shot_path : simpl never.
Arguments add_tags : simpl never.
Arguments remove_tags : simpl never.

Lemma shothammer_in_scope (W : World) (config : Config) (event : pyval) :
  in_scope config event -> last_event_saved W config ->
  exists name,
    project_name_from_event event = Ret name
    /\ shothammer W config event
       = bind (preamble config event name, Ret tt)
              (fun _ =>
                 path <- bootstrap_engine_to_shot_path W event ;;
                 reconcile W config event path).
Proof.
  intros ((name & Hname) & pid & allow & Hpid & Hallow & Hin) Hlast.
  exists name. split; [exact Hname|].
  unfold shothammer, preamble, reconcile, last_event_saved in *.
  rewrite Hname, Hpid. rewrite (bind_lift_ret pid). cbv beta.
  rewrite Hallow. unfold py_in. rewrite Hin, bind_lift_ret.
  rewrite capture_event_run.
  destruct (CAPTURE_LAST_EVENT config); [rewrite (Hlast eq_refl)|];
    destruct (bootstrap_engine_to_shot_path W event) as [tb [p|e]]; simpl;
    try reflexivity;
    now destruct (if py_truthy p then _ else _).
Qed.

Lemma shothammer_trace (W : World) (config : Config) (event : pyval) :
  in_scope config event -> last_event_saved W config ->
  exists name,
    project_name_from_event event = Ret name
    /\ fst (shothammer W config event)
       = (preamble config event name
            ++ fst (bootstrap_engine_to_shot_path W event)
            ++ match snd (bootstrap_engine_to_shot_path W event) with
               | Ret path => fst (reconcile W config event path)
               | Raise _ => []
               end)%list
    /\ snd (shothammer W config event)
       = match snd (bootstrap_engine_to_shot_path W event) with
         | Ret path => snd (reconcile W config event path)
         | Raise e => Raise e
         end.
Proof.
  intros Hs Hl. destruct (shothammer_in_scope W config event Hs Hl)
    as (name & Hname & ->).
  exists name. split; [exact Hname|].
  destruct (bootstrap_engine_to_shot_path W event) as [tb [p|e]]; simpl.
  - destruct (reconcile W config event p). now split.
  - now rewrite !app_nil_r.
Qed.

Lemma preamble_projections (config : Config) (event name : pyval) :
  lookups (preamble config event name) = []
  /\ template_calls (preamble config event name) = []
  /\ commands (preamble config event name) = []
  /\ logged EventLogger ERROR (preamble config event name) = []
  /\ captures (preamble config event name)
     = if CAPTURE_LAST_EVENT config
       then [(LAST_EVENT_FILE config, event)] else [].
Proof.
  unfold preamble. now destruct (CAPTURE_LAST_EVENT config).
Qed.

(** *** Events that differ in their meta type *)

Lemma dict_get_set_same (k : string) (v : pyval) (kvs : list (string * pyval)) :
  dict_get k (dict_set k v kvs) = Some v.
Proof.
  induction kvs as [|[k' x] kvs IH]; simpl.
  - now rewrite String.eqb_refl.
  - destruct (String.eqb k k') eqn:E; simpl; rewrite E; auto.
Qed.

Lemma dict_get_set_other (k k' : string) (v : pyval)
    (kvs : list (string * pyval)) :
  String.eqb k k' = false ->
  dict_get k (dict_set k' v kvs) = dict_get k kvs.
Proof.
  intros Hk. induction kvs as [|[k0 x] kvs IH]; simpl.
  - now rewrite Hk.
  - destruct (String.eqb k' k0) eqn:E; simpl.
    + apply String.eqb_eq in E. subst k0. now rewrite Hk.
    + now rewrite IH.
Qed.

Lemma getitem_with_meta_type (t event : pyval) (k : string) :
  String.eqb k "meta" = false ->
  getitem (with_meta_type t event) k = getitem event k.
Proof.
  intros Hk. destruct event as [| | | |kvs|]; try reflexivity.
  unfold with_meta_type.
  destruct (dict_get "meta" kvs) as [[| | | |meta|]|]; try reflexivity.
  unfold getitem. now rewrite dict_get_set_other.
Qed.

Lemma getitem2_with_meta_type (t event : pyval) (k1 k2 : string) :
  String.eqb k2 "type" = false ->
  getitem2 (with_meta_type t event) k1 k2 = getitem2 event k1 k2.
Proof.
  intros Hk2. unfold getitem2.
  destruct (String.eqb k1 "meta") eqn:Hk1;
    [|now rewrite getitem_with_meta_type].
  apply String.eqb_eq in Hk1. subst k1.
  destruct event as [| | | |kvs|]; try reflexivity.
  unfold with_meta_type.
  destruct (dict_get "meta" kvs) as [[| | | |meta|]|] eqn:Hm; try reflexivity.
  assert (E1 : forall x, getitem (PDict (dict_set "meta" x kvs)) "meta" = Ret x)
    by (intros x; unfold getitem; now rewrite dict_get_set_same).
  assert (E2 : getitem (PDict kvs) "meta" = Ret (PDict meta))
    by (unfold getitem; now rewrite Hm).
  rewrite E1, E2. unfold rbind, getitem. now rewrite dict_get_set_other.
Qed.

Lemma is_attribute_change_with_meta_type (s : string)
    (kvs meta : list (string * pyval)) :
  dict_get "meta" kvs = Some (PDict meta) ->
  is_attribute_change (with_meta_type (PStr s) (PDict kvs))
  = Ret (String.eqb s "attribute_change").
Proof.
  intros Hm. unfold is_attribute_change, with_meta_type, getitem2, getitem.
  rewrite Hm, dict_get_set_same. unfold rbind.
  now rewrite dict_get_set_same.
Qed.

Example with_meta_type_scenario (project : pyval) (added removed : list pyval) :
  with_meta_type (PStr "new_entity")
    (Scenario.event_with project "attribute_change" added removed)
  = Scenario.event_with project "new_entity" added removed.
Proof. reflexivity. Qed.

Lemma tag_names_with_meta_type (t event : pyval) (which : string) :
  String.eqb which "type" = false ->
  tag_names (with_meta_type t event) which = tag_names event which.
Proof. intros H. unfold tag_names. now rewrite getitem2_with_meta_type. Qed.

Lemma same_run_refl {A} (m : M A) : same_run m m.
Proof. now split. Qed.

Lemma same_run_bind {A B} (m m' : M A) (f f' : A -> M B) :
  same_run m m' -> (forall a, same_run (f a) (f' a)) ->
  same_run (bind m f) (bind m' f').
Proof.
  intros [Ht Hr] Hf. destruct m as [t r], m' as [t' r']. simpl in *.
  subst r'. destruct r as [a|e]; [|now split].
  destruct (Hf a) as [Hta Hra]. unfold same_run. simpl.
  destruct (f a), (f' a). simpl in *.
  now rewrite !map_app, Ht, Hta.
Qed.

Lemma same_run_try {A} (m m' : M A) (cls : exn_class) (h h' : exn -> M A) :
  same_run m m' -> (forall e, same_run (h e) (h' e)) ->
  same_run (try_except m cls h) (try_except m' cls h').
Proof.
  intros [Ht Hr] Hh. destruct m as [t r], m' as [t' r']. simpl in *.
  subst r'. destruct r as [a|e]; [now split|].
  unfold same_run. simpl.
  destruct (exn_class_eqb (exn_cls e) cls); [|now split].
  destruct (Hh e) as [Hte Hre]. destruct (h e), (h' e). simpl in *.
  now rewrite !map_app, Ht, Hte.
Qed.

Lemma same_run_capture (W : World) (event event' : pyval) (f : string) :
  same_run (capture_event W event' f) (capture_event W event f).
Proof. rewrite !capture_event_run. now split. Qed.

(** Compares two computations of the same shape, step by step. *)
Ltac same_steps :=
  repeat first
    [ match goal with
      | |- same_run ?m ?m' => constr_eq m m'; apply same_run_refl
      | |- same_run (capture_event _ _ _) (capture_event _ _ _) =>
          apply same_run_capture
      | |- same_run (bind _ _) (bind _ _) => apply same_run_bind
      | |- same_run (try_except _ _ _) (try_except _ _ _) => apply same_run_try
      | |- same_run (if ?b then _ else _) (if ?b then _ else _) => destruct b
      | |- forall _, _ => intro
      end ].

Lemma same_run_bootstrap (W : World) (t event : pyval) :
  same_run (bootstrap_engine_to_shot_path W (with_meta_type t event))
           (bootstrap_engine_to_shot_path W event).
Proof.
  unfold bootstrap_engine_to_shot_path, compose_or_capture.
  rewrite getitem2_with_meta_type by reflexivity.
  rewrite getitem_with_meta_type by reflexivity.
  same_steps.
Qed.

Lemma same_run_shothammer (W : World) (config : Config) (t event : pyval) :
  same_run (shothammer W config (with_meta_type t event))
           (shothammer W config event).
Proof.
  unfold shothammer, project_name_from_event, get_shot_code, get_project_id,
    add_tags, remove_tags.
  rewrite !getitem2_with_meta_type by reflexivity.
  rewrite !tag_names_with_meta_type by reflexivity.
  same_steps; try apply same_run_bootstrap.
  now split.
Qed.

(** *** The two loops over the tags *)

Lemma setting_fmt (keyword : string) (path : pyval) :
  exists msg,
    py_mod "Setting keyword %s on path %s" [PStr keyword; path] = Ret msg.
Proof. simpl. eexists. reflexivity. Qed.

Lemma removing_fmt (keyword : string) (path : pyval) :
  exists msg,
    py_mod "Removing keyword %s from path %s" [PStr keyword; path] = Ret msg.
Proof. simpl. eexists. reflexivity. Qed.

Lemma tags_to_add_fmt (tags : list pyval) :
  exists msg,
    py_mod "Tags to add: %s" [PStr (py_str (PList tags))] = Ret msg.
Proof. simpl. eexists. reflexivity. Qed.

Lemma add_loop (W : World) (config : Config) (path : pyval)
    (tags : list string) :
  let m := for_each (map PStr tags) (fun tag =>
             log_fmt EventLogger INFO "Setting keyword %s on path %s"
                     [tag; path] ;;
             hs_keyword_add W config path tag false) in
  snd m = Ret tt
  /\ commands (fst m)
     = map (fun kw => keyword_command "add" false kw path)
           (filter (prefixb (SGHS_TAG_NAMESPACE config)) tags).
Proof.
  induction tags as [|kw tags [IHs IHc]]; [now split|].
  cbn [map for_each filter].
  destruct (setting_fmt kw path) as (msg & Hmsg).
  rewrite (log_fmt_run _ _ _ _ _ Hmsg), hs_keyword_add_run.
  destruct (for_each (map PStr tags) _) as [t r]. simpl in IHs, IHc.
  destruct (prefixb (SGHS_TAG_NAMESPACE config) kw); simpl;
    rewrite IHc; now subst r.
Qed.

Lemma delete_loop (W : World) (config : Config) (path : pyval)
    (tags : list string) :
  let m := for_each (map PStr tags) (fun tag =>
             log_fmt EventLogger INFO "Removing keyword %s from path %s"
                     [tag; path] ;;
             hs_keyword_delete W config path tag false) in
  snd m = Ret tt
  /\ commands (fst m)
     = map (fun kw => keyword_command "delete" false kw path)
           (filter (prefixb (SGHS_TAG_NAMESPACE config)) tags).
Proof.
  induction tags as [|kw tags [IHs IHc]]; [now split|].
  cbn [map for_each filter].
  destruct (removing_fmt kw path) as (msg & Hmsg).
  rewrite (log_fmt_run _ _ _ _ _ Hmsg), hs_keyword_delete_run.
  destruct (for_each (map PStr tags) _) as [t r]. simpl in IHs, IHc.
  destruct (prefixb (SGHS_TAG_NAMESPACE config) kw); simpl;
    rewrite IHc; now subst r.
Qed.

Lemma reconcile_commands (W : World) (config : Config) (event path : pyval)
    (added removed : list string) :
  py_truthy path = true ->
  tag_names event "added" = Ret (map PStr added) ->
  tag_names event "removed" = Ret (map PStr removed) ->
  snd (reconcile W config event path) = Ret tt
  /\ commands (fst (reconcile W config event path))
     = (map (fun kw => keyword_command "add" false kw path)
            (filter (prefixb (SGHS_TAG_NAMESPACE config)) added)
        ++ map (fun kw => keyword_command "delete" false kw path)
               (filter (prefixb (SGHS_TAG_NAMESPACE config)) removed))%list.
Proof.
  intros Hp Ha Hr. unfold reconcile, add_tags, remove_tags.
  rewrite Hp, Ha, Hr, !bind_lift_ret.
  destruct (tags_to_add_fmt (map PStr added)) as (msg & Hmsg).
  rewrite (log_fmt_run _ _ _ _ _ Hmsg).
  destruct (add_loop W config path added) as [As Ac].
  destruct (delete_loop W config path removed) as [Ds Dc].
  cbv zeta in As, Ac, Ds, Dc.
  destruct (for_each (map PStr added) _) as [ta ra].
  destruct (for_each (map PStr removed) _) as [td rd].
  simpl in *. subst ra rd. simpl.
  now rewrite commands_app, Ac, Dc.
Qed.

(** *** Path resolution as a whole *)

Lemma destroy_tail {A} (c : M A) :
  fst (bind c (fun result => emit EDestroy ;; ret result))
  = (fst c ++ match snd c with Ret _ => [EDestroy] | Raise _ => [] end)%list
  /\ snd (bind c (fun result => emit EDestroy ;; ret result)) = snd c.
Proof. destruct c as [t [a|e]]; simpl; [now split | now rewrite app_nil_r]. Qed.

Lemma bootstrap_trace (W : World) (event shot_id : pyval) (tmpl : Template)
    (full_shot code sequence_name episode_name : pyval) :
  resolves W event shot_id tmpl full_shot ->
  record_fields full_shot code sequence_name episode_name ->
  let c := compose_or_capture W event shot_id tmpl
                              code sequence_name episode_name in
  exists t0,
    fst (bootstrap_engine_to_shot_path W event)
    = (t0 ++ fst c
          ++ match snd c with Ret _ => [EDestroy] | Raise _ => [] end)%list
    /\ snd (bootstrap_engine_to_shot_path W event) = snd c
    /\ lookups t0 = [("Shot", lookup_filters shot_id, lookup_fields)]
    /\ commands t0 = [] /\ template_calls t0 = [] /\ captures t0 = []
    /\ logged EventLogger ERROR t0 = [].
Proof.
  intros Hres Hrec c.
  destruct (resolution_run W event shot_id tmpl full_shot code sequence_name
              episode_name Hres Hrec)
    as (t0 & -> & Hl & _ & Hc & Ht & Hcap & _ & Hlog).
  exists t0. fold c.
  destruct (destroy_tail c) as [Ef Es].
  destruct (bind c _) as [tc rc]. simpl in Ef, Es. subst tc rc.
  simpl. auto 10.
Qed.

Lemma reconcile_none (W : World) (config : Config) (event : pyval) :
  reconcile W config event PNone = ret tt.
Proof. reflexivity. Qed.

(* ===================================================================== *)
(** ** The callback on an event in scope                                  *)
(* ===================================================================== *)

Section InScope.

Variables (W : World) (config : Config) (event : pyval).
Hypothesis Hscope : in_scope config event.
Hypothesis Hlast : last_event_saved W config.

Section Resolved.

Variables (shot_id : pyval) (tmpl : Template).
Variables (full_shot code sequence_name episode_name : pyval).
Hypothesis Hres : resolves W event shot_id tmpl full_shot.
Hypothesis Hrec : record_fields full_shot code sequence_name episode_name.

Lemma resolution_calls :
  lookups (fst (shothammer W config event))
  = [("Shot", lookup_filters shot_id, lookup_fields)]
  /\ template_calls (fst (shothammer W config event))
     = [field_map code sequence_name episode_name].
Proof.
  destruct (shothammer_trace W config event Hscope Hlast)
    as (name & _ & -> & _).
  destruct (bootstrap_trace W event shot_id tmpl full_shot code sequence_name
              episode_name Hres Hrec)
    as (t0 & -> & _ & Hl & _ & Ht & _).
  destruct (compose_template_call W event shot_id tmpl code sequence_name
              episode_name) as (rest & -> & [Rl Rt]).
  destruct (preamble_projections config event name) as (Pl & Pt & _).
  rewrite !lookups_app, !template_calls_app, Pl, Pt, Hl, Ht.
  change (lookups (EApplyFields (field_map code sequence_name episode_name)
                     :: rest)) with (lookups rest).
  change (template_calls
            (EApplyFields (field_map code sequence_name episode_name) :: rest))
    with (field_map code sequence_name episode_name :: template_calls rest).
  rewrite Rl, Rt.
  destruct (snd (compose_or_capture W event shot_id tmpl code
                   sequence_name episode_name));
    (destruct (snd (bootstrap_engine_to_shot_path W event)) as [path|e'];
     [destruct (reconcile_no_resolution W config event path) as [-> ->]|]);
    now split.
Qed.

(** C5.  For an event in scope the callback makes exactly one lookup,
    [find_one("Shot", filters=[["id", "is", shot_id]], fields=["id", "type",
    "code", "sg_episode", "sg_sequence"])] for the entity id of the event,
    and exactly one template call, with the field map [{Shot, Sequence,
    Episode}] filled from the code, the sequence and the episode name read
    from the record. *)
Theorem one_lookup_one_field_map :
  lookups (fst (shothammer W config event))
  = [("Shot",
      PList [PList [PStr "id"; PStr "is"; shot_id]],
      PList [PStr "id"; PStr "type"; PStr "code";
             PStr "sg_episode"; PStr "sg_sequence"])]
  /\ template_calls (fst (shothammer W config event))
     = [PDict [("Shot", code); ("Sequence", sequence_name);
               ("Episode", episode_name)]].
Proof.
  exact resolution_calls.
Qed.

(** C6.  When the template raises a TankError, the event is captured
    exactly once, under [shot_id-<id>-<YYYY-MM-DD_HH-MM-SS>.pickle]; the
    failure is logged once at error level, with that file name and the
    message of the exception; no command is issued; and the callback
    returns normally. *)
Theorem composition_failure_is_captured (err : exn) (d : datetime) :
  apply_fields tmpl (field_map code sequence_name episode_name) = Raise err ->
  exn_cls err = TankError ->
  getitem event "created_at" = Ret (PDatetime d) ->
  open_dump W (failure_filename shot_id d) = None ->
  captures (fst (shothammer W config event))
  = ((if CAPTURE_LAST_EVENT config
      then [(LAST_EVENT_FILE config, event)] else [])
     ++ [(failure_filename shot_id d, event)])%list
  /\ failure_filename shot_id d
     = "shot_id-" ++ py_str shot_id ++ "-"
         ++ pad4 (dt_year d) ++ "-" ++ pad2 (dt_month d) ++ "-"
         ++ pad2 (dt_day d) ++ "_" ++ pad2 (dt_hour d) ++ "-"
         ++ pad2 (dt_minute d) ++ "-" ++ pad2 (dt_second d) ++ ".pickle"
  /\ logged EventLogger ERROR (fst (shothammer W config event))
     = [error_message (failure_filename shot_id d) (exn_msg err)]
  /\ commands (fst (shothammer W config event)) = []
  /\ snd (shothammer W config event) = Ret tt.
Proof.
  intros Happly Hcls Htime Hwrite.
  destruct (shothammer_trace W config event Hscope Hlast)
    as (name & _ & -> & ->).
  destruct (bootstrap_trace W event shot_id tmpl full_shot code sequence_name
              episode_name Hres Hrec)
    as (t0 & -> & -> & _ & Hc & _ & Hcap & Hlog).
  rewrite (compose_captures W event shot_id tmpl code sequence_name
             episode_name err d Happly Hcls Htime), Hwrite.
  destruct (preamble_projections config event name) as (_ & _ & Pc & Pg & Pcap).
  cbn [fst snd]. rewrite reconcile_none.
  rewrite !captures_app, !logged_app, !commands_app, Pc, Pg, Pcap, Hc, Hcap,
    Hlog.
  repeat split; try reflexivity.
  unfold failure_filename. rewrite strftime_format.
  now rewrite !append_assoc.
Qed.

(** C10.  The file name of a per-failure capture is the bare name
    [shot_id-<id>-<timestamp>.pickle]: for an integer id it contains no
    path separator, and it is built from the id and the date of the event
    alone; [LAST_EVENT_FILE] names the capture of the last event only. *)
Theorem failure_capture_file_is_a_bare_name (err : exn) (d : datetime)
    (z : Z) :
  shot_id = PInt z ->
  apply_fields tmpl (field_map code sequence_name episode_name) = Raise err ->
  exn_cls err = TankError ->
  getitem event "created_at" = Ret (PDatetime d) ->
  captures (fst (shothammer W config event))
  = ((if CAPTURE_LAST_EVENT config
      then [(LAST_EVENT_FILE config, event)] else [])
     ++ [(failure_filename (PInt z) d, event)])%list
  /\ failure_filename (PInt z) d
     = "shot_id-" ++ str_of_Z z ++ "-"
         ++ strftime_dt d "%Y-%m-%d_%H-%M-%S" ++ ".pickle"
  /\ contains_char "/" (failure_filename (PInt z) d) = false
  /\ contains_char backslash (failure_filename (PInt z) d) = false.
Proof.
  intros Hid Happly Hcls Htime. subst shot_id.
  destruct (shothammer_trace W config event Hscope Hlast)
    as (name & _ & -> & _).
  destruct (bootstrap_trace W event (PInt z) tmpl full_shot code sequence_name
              episode_name Hres Hrec)
    as (t0 & -> & -> & _ & _ & _ & Hcap & _).
  rewrite (compose_captures W event (PInt z) tmpl code sequence_name
             episode_name err d Happly Hcls Htime).
  destruct (preamble_projections config event name) as (_ & _ & _ & _ & Pcap).
  cbn [fst snd].
  repeat split.
  - rewrite !captures_app, Pcap, Hcap.
    destruct (open_dump W (failure_filename (PInt z) d));
      rewrite ?reconcile_none; reflexivity.
  - apply failure_filename_no_separator. now left.
  - apply failure_filename_no_separator. now right.
Qed.

End Resolved.

(** C9.  When the lookup returns no record, none of the three reads
    raises: each gives [None]; the template is called once, with the
    all-[None] field map; and path resolution ends as that composition
    ends. *)
Theorem missing_record_flows_into_composition (shot_id : pyval)
    (tmpl : Template) :
  resolves W event shot_id tmpl PNone ->
  (snd (read_or_none "Shot" (getitem PNone "code")) = Ret PNone
   /\ snd (read_or_none "Sequence" (getitem PNone "sg_sequence")) = Ret PNone
   /\ snd (read_or_none "Episode" (getitem2 PNone "sg_episode" "name"))
      = Ret PNone)
  /\ template_calls (fst (shothammer W config event))
     = [field_map PNone PNone PNone]
  /\ snd (bootstrap_engine_to_shot_path W event)
     = snd (compose_or_capture W event shot_id tmpl PNone PNone PNone).
Proof.
  intros Hres.
  assert (Hrec : record_fields PNone PNone PNone PNone) by now repeat split.
  split; [now repeat split|]. split.
  - apply (resolution_calls shot_id tmpl PNone PNone PNone PNone
             Hres Hrec).
  - destruct (bootstrap_trace W event shot_id tmpl PNone PNone PNone PNone
                Hres Hrec) as (t0 & _ & Hs & _). exact Hs.
Qed.

(** C7.  With a resolved path, the commands of the callback are the
    [hs keyword add] commands of the added tags of the namespace, in the
    order of the event and one per occurrence, followed by the
    [hs keyword delete] commands of the removed tags of the namespace;
    none is recursive. *)
Theorem additions_before_removals (path : pyval)
    (added removed : list string) :
  snd (bootstrap_engine_to_shot_path W event) = Ret path ->
  py_truthy path = true ->
  tag_names event "added" = Ret (map PStr added) ->
  tag_names event "removed" = Ret (map PStr removed) ->
  commands (fst (shothammer W config event))
  = (map (fun kw => keyword_command "add" false kw path)
         (filter (prefixb (SGHS_TAG_NAMESPACE config)) added)
     ++ map (fun kw => keyword_command "delete" false kw path)
            (filter (prefixb (SGHS_TAG_NAMESPACE config)) removed))%list
  /\ snd (shothammer W config event) = Ret tt.
Proof.
  intros Hpath Htruthy Hadded Hremoved.
  destruct (shothammer_trace W config event Hscope Hlast)
    as (name & _ & -> & ->).
  rewrite Hpath.
  destruct (reconcile_commands W config event path added removed
              Htruthy Hadded Hremoved) as [-> Hc].
  destruct (preamble_projections config event name) as (_ & _ & Pc & _).
  rewrite !commands_app, Pc, Hc.
  now rewrite (bootstrap_no_command W event).
Qed.

End InScope.

(* ===================================================================== *)
(** ** The classifier                                                     *)
(* ===================================================================== *)

(** C2, as the code has it.  The callback never reads the meta type of the
    event: replacing it by any value changes neither how the callback ends
    nor its trace, apart from the event that is printed and pickled.  The
    restriction to tag changes is the event filter registered with the
    daemon. *)
Theorem meta_type_is_not_inspected (W : World) (config : Config)
    (t event : pyval) :
  map forget_payload (fst (shothammer W config (with_meta_type t event)))
  = map forget_payload (fst (shothammer W config event))
  /\ snd (shothammer W config (with_meta_type t event))
     = snd (shothammer W config event).
Proof. exact (same_run_shothammer W config t event). Qed.

(** C2, as stated, fails: an event of meta type [new_entity] whose project
    is allowed is looked up, its path composed and its tag applied. *)
Lemma meta_type_counterexample :
  is_attribute_change
    (Scenario.event_with Scenario.project5 "new_entity"
                         [Scenario.tag "sghs:hero"] [])
  = Ret false
  /\ lookups (fst (shothammer
                     (Scenario.world_with Scenario.sh010 None)
                     (Scenario.config_with (Some [5%Z]))
                     (Scenario.event_with Scenario.project5 "new_entity"
                                          [Scenario.tag "sghs:hero"] [])))
     = [("Shot", lookup_filters (PInt 9502), lookup_fields)]
  /\ template_calls (fst (shothammer
                     (Scenario.world_with Scenario.sh010 None)
                     (Scenario.config_with (Some [5%Z]))
                     (Scenario.event_with Scenario.project5 "new_entity"
                                          [Scenario.tag "sghs:hero"] [])))
     = [field_map (PStr "sh010") (PStr "seq01") (PStr "ep01")]
  /\ commands (fst (shothammer
                     (Scenario.world_with Scenario.sh010 None)
                     (Scenario.config_with (Some [5%Z]))
                     (Scenario.event_with Scenario.project5 "new_entity"
                                          [Scenario.tag "sghs:hero"] [])))
     = ["hs keyword add sghs:hero /proj/seq01/ep01/sh010"].
Proof. vm_compute. repeat split. Qed.

(** C1, on the code.  The empty setting of [SGHS_PROJECTS] is read as
    [None], and with [None] the membership test of line 98 raises: for an
    event that has a project the callback ends in a TypeError, before any
    lookup and without any command. *)
Theorem empty_allow_list_raises (W : World) (config : Config)
    (event name project_id : pyval) :
  SGHS_PROJECTS config = None ->
  project_name_from_event event = Ret name ->
  get_project_id event = Ret project_id ->
  last_event_saved W config ->
  read_SGHS_PROJECTS EmptyString = Ret None
  /\ snd (shothammer W config event)
     = Raise (Exn TypeError "argument of type 'NoneType' is not iterable")
  /\ fst (shothammer W config event) = preamble config event name.
Proof.
  intros Hnone Hname Hpid Hlast. split; [reflexivity|].
  unfold shothammer, preamble, last_event_saved in *.
  rewrite Hname, Hpid, Hnone, capture_event_run.
  destruct (CAPTURE_LAST_EVENT config); [rewrite (Hlast eq_refl)|];
    now split.
Qed.

(** C4, on the code.  For an event without project whose shot code is a
    string, formatting the warning with [%i] raises: the callback ends in a
    TypeError and nothing is logged at warning level. *)
Theorem null_project_raises (W : World) (config : Config) (event : pyval)
    (code : string) :
  getitem event "project" = Ret PNone ->
  get_shot_code event = Ret (PStr code) ->
  snd (shothammer W config event)
  = Raise (Exn TypeError "%i format: a real number is required, not str")
  /\ fst (shothammer W config event)
     = [EPprint event; ELog EventLogger DEBUG "None"].
Proof.
  intros Hproject Hcode.
  unfold shothammer, project_name_from_event, getitem2.
  rewrite Hproject, Hcode. now split.
Qed.

(** C3, as stated, fails: when writing the capture file fails, the engine
    that was bootstrapped is not destroyed. *)
Lemma engine_leak_counterexample :
  bootstrap_engine
    (Scenario.world_with PNone (Some (Exn OSError "Permission denied")))
    "tk-shell" (PDict [("type", PStr "Shot"); ("id", PInt 9502)])
  = Ret (Scenario.engine_with PNone)
  /\ snd (bootstrap_engine_to_shot_path
            (Scenario.world_with PNone (Some (Exn OSError "Permission denied")))
            (Scenario.event_with Scenario.project5 "attribute_change" [] []))
     = Raise (Exn OSError "Permission denied")
  /\ bootstraps (fst (bootstrap_engine_to_shot_path
            (Scenario.world_with PNone (Some (Exn OSError "Permission denied")))
            (Scenario.event_with Scenario.project5 "attribute_change" [] [])))
     = [("tk-shell", PDict [("type", PStr "Shot"); ("id", PInt 9502)])]
  /\ destroys (fst (bootstrap_engine_to_shot_path
            (Scenario.world_with PNone (Some (Exn OSError "Permission denied")))
            (Scenario.event_with Scenario.project5 "attribute_change" [] [])))
     = 0.
Proof. vm_compute. repeat split. Qed.

(* ===================================================================== *)
(** ** The end-to-end scenario                                            *)
(* ===================================================================== *)

(** The scenario of an allowed project whose shot resolves to
    [/proj/seq01/ep01/sh010]: one lookup, one template call. *)
Lemma one_lookup_one_field_map_witness :
  lookups (fst (shothammer
                  (Scenario.world_with Scenario.sh010 None)
                  (Scenario.config_with (Some [5%Z]))
                  (Scenario.event_with Scenario.project5 "attribute_change"
                                       [Scenario.tag "sghs:hero"] [])))
  = [("Shot",
      PList [PList [PStr "id"; PStr "is"; PInt 9502]],
      PList [PStr "id"; PStr "type"; PStr "code";
             PStr "sg_episode"; PStr "sg_sequence"])]
  /\ template_calls (fst (shothammer
                  (Scenario.world_with Scenario.sh010 None)
                  (Scenario.config_with (Some [5%Z]))
                  (Scenario.event_with Scenario.project5 "attribute_change"
                                       [Scenario.tag "sghs:hero"] [])))
     = [PDict [("Shot", PStr "sh010"); ("Sequence", PStr "seq01");
               ("Episode", PStr "ep01")]].
Proof.
  apply (one_lookup_one_field_map
           (Scenario.world_with Scenario.sh010 None)
           (Scenario.config_with (Some [5%Z]))
           (Scenario.event_with Scenario.project5 "attribute_change"
                                [Scenario.tag "sghs:hero"] []))
    with (tmpl := Scenario.work_shot_area) (full_shot := Scenario.sh010).
  - split; [exists (PStr "demo"); reflexivity|].
    exists (PInt 5), [5%Z]. repeat split; reflexivity.
  - intros _. reflexivity.
  - split; [reflexivity|]. exists (Scenario.engine_with Scenario.sh010).
    repeat split; reflexivity.
  - repeat split; reflexivity.
Defined.

(** The same event when the lookup finds no record: the template raises,
    the event is captured once and the callback returns. *)
Lemma composition_failure_is_captured_witness :
  captures (fst (shothammer
                   (Scenario.world_with PNone None)
                   (Scenario.config_with (Some [5%Z]))
                   (Scenario.event_with Scenario.project5 "attribute_change"
                                        [Scenario.tag "sghs:hero"] [])))
  = [("/var/tmp/last_event.pickle",
      Scenario.event_with Scenario.project5 "attribute_change"
                          [Scenario.tag "sghs:hero"] []);
     ("shot_id-9502-2024-01-02_03-04-05.pickle",
      Scenario.event_with Scenario.project5 "attribute_change"
                          [Scenario.tag "sghs:hero"] [])]
  /\ commands (fst (shothammer
                   (Scenario.world_with PNone None)
                   (Scenario.config_with (Some [5%Z]))
                   (Scenario.event_with Scenario.project5 "attribute_change"
                                        [Scenario.tag "sghs:hero"] [])))
     = []
  /\ snd (shothammer
            (Scenario.world_with PNone None)
            (Scenario.config_with (Some [5%Z]))
            (Scenario.event_with Scenario.project5 "attribute_change"
                                 [Scenario.tag "sghs:hero"] []))
     = Ret tt.
Proof.
  destruct (composition_failure_is_captured
              (Scenario.world_with PNone None)
              (Scenario.config_with (Some [5%Z]))
              (Scenario.event_with Scenario.project5 "attribute_change"
                                   [Scenario.tag "sghs:hero"] [])
              (conj (ex_intro _ (PStr "demo") eq_refl)
                    (ex_intro _ (PInt 5)
                       (ex_intro _ [5%Z] (conj eq_refl (conj eq_refl eq_refl)))))
              (fun _ => eq_refl)
              (PInt 9502) Scenario.work_shot_area PNone PNone PNone PNone
              (conj eq_refl
                    (ex_intro _ (Scenario.engine_with PNone)
                       (conj eq_refl (conj eq_refl eq_refl))))
              (conj eq_refl (conj eq_refl eq_refl))
              (Exn TankError "Missing required fields for the template")
              (Datetime 2024 1 2 3 4 5)
              eq_refl eq_refl eq_refl eq_refl)
    as (Hcap & _ & _ & Hcmd & Hret).
  exact (conj Hcap (conj Hcmd Hret)).
Defined.

(** The capture file of that failure, also when it cannot be written. *)
Lemma failure_capture_file_is_a_bare_name_witness :
  captures (fst (shothammer
                   (Scenario.world_with PNone
                      (Some (Exn OSError "Permission denied")))
                   (Scenario.config_with (Some [5%Z]))
                   (Scenario.event_with Scenario.project5 "attribute_change"
                                        [Scenario.tag "sghs:hero"] [])))
  = [("/var/tmp/last_event.pickle",
      Scenario.event_with Scenario.project5 "attribute_change"
                          [Scenario.tag "sghs:hero"] []);
     ("shot_id-9502-2024-01-02_03-04-05.pickle",
      Scenario.event_with Scenario.project5 "attribute_change"
                          [Scenario.tag "sghs:hero"] [])]
  /\ contains_char "/" "shot_id-9502-2024-01-02_03-04-05.pickle" = false.
Proof.
  destruct (failure_capture_file_is_a_bare_name
              (Scenario.world_with PNone
                 (Some (Exn OSError "Permission denied")))
              (Scenario.config_with (Some [5%Z]))
              (Scenario.event_with Scenario.project5 "attribute_change"
                                   [Scenario.tag "sghs:hero"] [])
              (conj (ex_intro _ (PStr "demo") eq_refl)
                    (ex_intro _ (PInt 5)
                       (ex_intro _ [5%Z] (conj eq_refl (conj eq_refl eq_refl)))))
              (fun _ => eq_refl)
              (PInt 9502) Scenario.work_shot_area PNone PNone PNone PNone
              (conj eq_refl
                    (ex_intro _ (Scenario.engine_with PNone)
                       (conj eq_refl (conj eq_refl eq_refl))))
              (conj eq_refl (conj eq_refl eq_refl))
              (Exn TankError "Missing required fields for the template")
              (Datetime 2024 1 2 3 4 5) 9502%Z
              eq_refl eq_refl eq_refl eq_refl)
    as (Hcap & _ & Hslash & _).
  exact (conj Hcap Hslash).
Defined.

(** The lookup that finds no record. *)
Lemma missing_record_flows_into_composition_witness :
  template_calls (fst (shothammer
                   (Scenario.world_with PNone None)
                   (Scenario.config_with (Some [5%Z]))
                   (Scenario.event_with Scenario.project5 "attribute_change"
                                        [Scenario.tag "sghs:hero"] [])))
  = [field_map PNone PNone PNone]
  /\ snd (bootstrap_engine_to_shot_path
            (Scenario.world_with PNone None)
            (Scenario.event_with Scenario.project5 "attribute_change"
                                 [Scenario.tag "sghs:hero"] []))
     = Ret PNone.
Proof.
  destruct (missing_record_flows_into_composition
              (Scenario.world_with PNone None)
              (Scenario.config_with (Some [5%Z]))
              (Scenario.event_with Scenario.project5 "attribute_change"
                                   [Scenario.tag "sghs:hero"] [])
              (conj (ex_intro _ (PStr "demo") eq_refl)
                    (ex_intro _ (PInt 5)
                       (ex_intro _ [5%Z] (conj eq_refl (conj eq_refl eq_refl)))))
              (fun _ => eq_refl)
              (PInt 9502) Scenario.work_shot_area
              (conj eq_refl
                    (ex_intro _ (Scenario.engine_with PNone)
                       (conj eq_refl (conj eq_refl eq_refl)))))
    as (_ & Hcalls & Hend).
  exact (conj Hcalls Hend).
Defined.

(** A tag that is both added and removed: one add, then one delete; a tag
    of another namespace: nothing. *)
Lemma additions_before_removals_witness :
  commands (fst (shothammer
                   (Scenario.world_with Scenario.sh010 None)
                   (Scenario.config_with (Some [5%Z]))
                   (Scenario.event_with Scenario.project5 "attribute_change"
                      [Scenario.tag "sghs:x"; Scenario.tag "other:foo"]
                      [Scenario.tag "sghs:x"])))
  = ["hs keyword add sghs:x /proj/seq01/ep01/sh010";
     "hs keyword delete sghs:x /proj/seq01/ep01/sh010"]
  /\ snd (shothammer
            (Scenario.world_with Scenario.sh010 None)
            (Scenario.config_with (Some [5%Z]))
            (Scenario.event_with Scenario.project5 "attribute_change"
               [Scenario.tag "sghs:x"; Scenario.tag "other:foo"]
               [Scenario.tag "sghs:x"]))
     = Ret tt.
Proof.
  exact (additions_before_removals
           (Scenario.world_with Scenario.sh010 None)
           (Scenario.config_with (Some [5%Z]))
           (Scenario.event_with Scenario.project5 "attribute_change"
              [Scenario.tag "sghs:x"; Scenario.tag "other:foo"]
              [Scenario.tag "sghs:x"])
           (conj (ex_intro _ (PStr "demo") eq_refl)
                 (ex_intro _ (PInt 5)
                    (ex_intro _ [5%Z] (conj eq_refl (conj eq_refl eq_refl)))))
           (fun _ => eq_refl)
           (PStr "/proj/seq01/ep01/sh010") ["sghs:x"; "other:foo"] ["sghs:x"]
           eq_refl eq_refl eq_refl eq_refl).
Defined.

(** The allowed project under an empty allow-list. *)
Lemma empty_allow_list_raises_witness :
  snd (shothammer
         (Scenario.world_with Scenario.sh010 None)
         (Scenario.config_with None)
         (Scenario.event_with Scenario.project5 "attribute_change"
                              [Scenario.tag "sghs:hero"] []))
  = Raise (Exn TypeError "argument of type 'NoneType' is not iterable").
Proof.
  destruct (empty_allow_list_raises
              (Scenario.world_with Scenario.sh010 None)
              (Scenario.config_with None)
              (Scenario.event_with Scenario.project5 "attribute_change"
                                   [Scenario.tag "sghs:hero"] [])
              (PStr "demo") (PInt 5)
              eq_refl eq_refl eq_refl (fun _ => eq_refl))
    as (_ & Hraise & _).
  exact Hraise.
Defined.

(** The event without project. *)
Lemma null_project_raises_witness :
  snd (shothammer
         (Scenario.world_with Scenario.sh010 None)
         (Scenario.config_with (Some [5%Z]))
         (Scenario.event_with PNone "attribute_change"
                              [Scenario.tag "sghs:hero"] []))
  = Raise (Exn TypeError "%i format: a real number is required, not str").
Proof.
  destruct (null_project_raises
              (Scenario.world_with Scenario.sh010 None)
              (Scenario.config_with (Some [5%Z]))
              (Scenario.event_with PNone "attribute_change"
                                   [Scenario.tag "sghs:hero"] [])
              "ep01_seq01_sh010" eq_refl eq_refl)
    as (Hraise & _).
  exact Hraise.
Defined.

(* ===================================================================== *)
(** ** The allow-list read from the configuration                        *)
(* ===================================================================== *)

Lemma rev_string_involutive (s : string) : rev_string (rev_string s) = s.
Proof.
  unfold rev_string.
  now rewrite list_ascii_of_string_of_list_ascii, rev_involutive,
    string_of_list_ascii_of_string.
Qed.

Lemma lstrip_no_space (s : string) : no_space s -> lstrip s = s.
Proof.
  unfold no_space. destruct s as [|c s]; [reflexivity|]. simpl.
  intros H. apply andb_prop in H. destruct H as [Hc _].
  now destruct (is_space c).
Qed.

Lemma no_space_rev (s : string) : no_space s -> no_space (rev_string s).
Proof.
  unfold no_space, rev_string.
  rewrite list_ascii_of_string_of_list_ascii, !forallb_forall.
  intros H c Hc. apply H. now apply in_rev.
Qed.

Lemma strip_no_space (s : string) : no_space s -> strip s = s.
Proof.
  intros H. unfold strip.
  rewrite (lstrip_no_space s H), (lstrip_no_space _ (no_space_rev s H)).
  apply rev_string_involutive.
Qed.

Lemma no_space_uint (u : Decimal.uint) : no_space (NilEmpty.string_of_uint u).
Proof. unfold no_space. induction u; simpl; auto. Qed.

Lemma int_digits_uint (u : Decimal.uint) (acc : Z) (after_digit : bool) :
  u <> Decimal.Nil \/ after_digit = true ->
  int_digits (NilEmpty.string_of_uint u) acc after_digit
  = Some (uint_val u acc).
Proof.
  revert acc after_digit.
  induction u as [|u IH|u IH|u IH|u IH|u IH|u IH|u IH|u IH|u IH|u IH];
    intros acc b Hb;
    [destruct Hb as [Hb | ->]; [now elim Hb | reflexivity] | ..];
    cbn [NilEmpty.string_of_uint uint_val];
    (etransitivity; [|apply (IH _ true); now right]); reflexivity.
Qed.

Lemma uint_val_acc (u : Decimal.uint) (acc : positive) :
  uint_val u (Z.pos acc) = Z.pos (Pos.of_uint_acc u acc).
Proof.
  revert acc. induction u; intros acc; cbn [uint_val Pos.of_uint_acc];
    [reflexivity | ..];
    match goal with
    | |- uint_val _ ?z = _ =>
        match goal with
        | |- _ = Z.pos (Pos.of_uint_acc _ ?p) =>
            replace z with (Z.pos p) by lia
        end
    end; auto.
Qed.

Lemma uint_val_of_uint (u : Decimal.uint) :
  uint_val u 0 = Z.of_N (Pos.of_uint u).
Proof.
  induction u; cbn [uint_val Pos.of_uint]; [reflexivity | exact IHu | ..];
    cbn [Z.mul Z.add Z.of_N]; apply uint_val_acc.
Qed.

Lemma uint_val_to_uint (p : positive) : uint_val (Pos.to_uint p) 0 = Z.pos p.
Proof. now rewrite uint_val_of_uint, Unsigned.of_to. Qed.

Lemma string_of_uint_nonnil (u : Decimal.uint) :
  u <> Decimal.Nil ->
  NilZero.string_of_uint u = NilEmpty.string_of_uint u.
Proof. destruct u; [now intros H; elim H | reflexivity..]. Qed.

(** Reading back the decimal writing of a number. *)
Lemma py_int_str_of_Z (z : Z) : py_int (str_of_Z z) = Ret z.
Proof.
  unfold py_int, str_of_Z. destruct z as [|p|p]; [reflexivity | |];
    cbn [Z.to_int NilZero.string_of_int];
    rewrite (string_of_uint_nonnil _ (Unsigned.to_uint_nonnil p)).
  - rewrite (strip_no_space _ (no_space_uint _)).
    pose proof (int_digits_uint (Pos.to_uint p) 0 false
                  (or_introl (Unsigned.to_uint_nonnil p))) as H.
    rewrite uint_val_to_uint in H.
    destruct (Pos.to_uint p) eqn:E;
      cbn [NilEmpty.string_of_uint] in *; now rewrite H.
  - assert (Hs : no_space (String "-" (NilEmpty.string_of_uint (Pos.to_uint p)))).
    { unfold no_space. cbn [list_ascii_of_string forallb].
      apply andb_true_intro. split; [reflexivity | apply no_space_uint]. }
    rewrite (strip_no_space _ Hs).
    rewrite (int_digits_uint (Pos.to_uint p) 0 false
               (or_introl (Unsigned.to_uint_nonnil p))), uint_val_to_uint.
    reflexivity.
Qed.

Lemma uint_no_comma (u : Decimal.uint) :
  contains_char "," (NilEmpty.string_of_uint u) = false.
Proof. induction u; simpl; auto. Qed.

Lemma str_of_Z_no_comma (z : Z) : contains_char "," (str_of_Z z) = false.
Proof.
  unfold str_of_Z. destruct z as [|p|p]; [reflexivity | |];
    cbn [Z.to_int NilZero.string_of_int];
    rewrite (string_of_uint_nonnil _ (Unsigned.to_uint_nonnil p));
    [|cbn [contains_char]]; now rewrite uint_no_comma.
Qed.

Lemma str_of_Z_nonempty (z : Z) : String.eqb (str_of_Z z) EmptyString = false.
Proof.
  unfold str_of_Z. destruct z as [|p|p]; [reflexivity | | reflexivity].
  cbn [Z.to_int NilZero.string_of_int].
  rewrite (string_of_uint_nonnil _ (Unsigned.to_uint_nonnil p)).
  destruct (Pos.to_uint p) eqn:E; try reflexivity.
  now elim (Unsigned.to_uint_nonnil p).
Qed.

Lemma split_on_no_sep (sep : ascii) (a : string) :
  contains_char sep a = false -> split_on sep a = [a].
Proof.
  induction a as [|c a IH]; [reflexivity|]. cbn [contains_char split_on].
  intros H. apply orb_false_elim in H. destruct H as [Hc Ha].
  rewrite Ascii.eqb_sym, Hc. now rewrite (IH Ha).
Qed.

Lemma split_on_app (sep : ascii) (a b : string) :
  contains_char sep a = false ->
  split_on sep (a ++ String sep b) = a :: split_on sep b.
Proof.
  induction a as [|c a IH]; cbn [append contains_char split_on].
  - now rewrite Ascii.eqb_refl.
  - intros H. apply orb_false_elim in H. destruct H as [Hc Ha].
    rewrite Ascii.eqb_sym, Hc. now rewrite (IH Ha).
Qed.

Lemma split_on_nonempty (sep : ascii) (s : string) : split_on sep s <> [].
Proof.
  induction s as [|c s IH]; cbn [split_on]; [discriminate|].
  destruct (Ascii.eqb c sep); [discriminate|].
  now destruct (split_on sep s).
Qed.

Lemma split_concat (ss : list string) :
  ss <> [] ->
  Forall (fun s => contains_char "," s = false) ss ->
  split_on "," (String.concat "," ss) = ss.
Proof.
  induction ss as [|x [|y ss] IH]; intros Hne Hall; [now elim Hne | |].
  - inversion_clear Hall. now apply split_on_no_sep.
  - inversion_clear Hall as [|? ? Hx Hrest].
    change (String.concat "," (x :: y :: ss))
      with (x ++ String "," (String.concat "," (y :: ss))).
    rewrite (split_on_app "," _ _ Hx). now rewrite IH.
Qed.

Lemma rmap_py_int_str (l : list Z) : rmap py_int (map str_of_Z l) = Ret l.
Proof.
  induction l as [|z l IH]; [reflexivity|]. cbn [map rmap].
  now rewrite py_int_str_of_Z, IH.
Qed.

Lemma concat_nonempty (z : Z) (l : list Z) :
  String.eqb (String.concat "," (map str_of_Z (z :: l))) EmptyString = false.
Proof.
  pose proof (str_of_Z_nonempty z) as H.
  cbn [map String.concat]. destruct (str_of_Z z); [discriminate|].
  now destruct (map str_of_Z l).
Qed.

(** X1.  A non-empty list of project ids written as decimal numbers
    separated by commas is read back as that list. *)
Theorem allow_list_round_trip (l : list Z) :
  l <> [] ->
  read_SGHS_PROJECTS (String.concat "," (map str_of_Z l)) = Ret (Some l).
Proof.
  intros Hne. destruct l as [|z l]; [now elim Hne|].
  unfold read_SGHS_PROJECTS. rewrite concat_nonempty.
  rewrite split_concat.
  - now rewrite rmap_py_int_str.
  - discriminate.
  - apply Forall_forall. intros s Hs. apply in_map_iff in Hs.
    destruct Hs as (x & <- & _). apply str_of_Z_no_comma.
Qed.

Lemma rmap_length {A B} (f : A -> result B) (l : list A) (ys : list B) :
  rmap f l = Ret ys -> length ys = length l.
Proof.
  revert ys. induction l as [|x l IH]; intros ys; cbn [rmap].
  - now intros [= <-].
  - destruct (f x); [|discriminate]. cbn [rbind].
    destruct (rmap f l) as [zs|]; [|discriminate]. cbn [rbind].
    intros [= <-]. cbn [length]. now rewrite (IH zs).
Qed.

Lemma py_int_raises (s : string) (e : exn) :
  py_int s = Raise e -> exn_cls e = ValueError.
Proof.
  unfold py_int.
  match goal with |- context [match ?p with Some _ => _ | None => _ end] =>
    destruct p end; [discriminate|]. now intros [= <-].
Qed.

Lemma rmap_py_int_raises (l : list string) (e : exn) :
  rmap py_int l = Raise e -> exn_cls e = ValueError.
Proof.
  induction l as [|x l IH]; cbn [rmap]; [discriminate|].
  destruct (py_int x) eqn:E; cbn [rbind].
  - destruct (rmap py_int l); cbn [rbind]; [discriminate|].
    intros [= <-]. now apply IH.
  - intros [= <-]. now apply (py_int_raises x).
Qed.

(** X2.  The allow-list is [None] exactly for the empty setting; a list
    that was read is never empty; and the only error of reading is a
    ValueError. *)
Theorem allow_list_is_none_or_non_empty (raw : string) :
  match read_SGHS_PROJECTS raw with
  | Ret None => raw = EmptyString
  | Ret (Some l) => l <> [] /\ raw <> EmptyString
  | Raise e => exn_cls e = ValueError /\ raw <> EmptyString
  end.
Proof.
  unfold read_SGHS_PROJECTS. destruct (String.eqb raw EmptyString) eqn:E.
  - now apply String.eqb_eq.
  - apply String.eqb_neq in E.
    destruct (rmap py_int (split_on "," raw)) as [l|e] eqn:R; cbn [rbind].
    + split; [|exact E]. intros ->. apply rmap_length in R.
      pose proof (split_on_nonempty "," raw).
      now destruct (split_on "," raw).
    + split; [|exact E]. now apply (rmap_py_int_raises _ _ R).
Qed.

Lemma rmap_snoc_raises {A B} (f : A -> result B) (l : list A) (x : A) (e : exn) :
  f x = Raise e -> exists e', rmap f (l ++ [x]) = Raise e'.
Proof.
  intros Hx. induction l as [|y l IH]; cbn [app rmap].
  - rewrite Hx. now exists e.
  - destruct IH as (e' & IH). destruct (f y) as [b|e0]; cbn [rbind].
    + rewrite IH. now exists e'.
    + now exists e0.
Qed.

Lemma split_on_trailing (raw : string) :
  exists w l, split_on "," (raw ++ ",") = w :: (l ++ [EmptyString])%list.
Proof.
  induction raw as [|c raw (w & l & IH)];
    [now exists EmptyString, []|].
  cbn [append split_on]. rewrite IH.
  destruct (Ascii.eqb c ",");
    [now exists EmptyString, (w :: l) | now exists (String c w), l].
Qed.

(** X3.  A setting that ends with a comma, or starts with one, cannot be
    read: the empty item is not a number and the module fails with a
    ValueError. *)
Theorem allow_list_rejects_empty_item (raw : string) :
  (exists e, read_SGHS_PROJECTS (raw ++ ",") = Raise e
             /\ exn_cls e = ValueError)
  /\ (exists e, read_SGHS_PROJECTS ("," ++ raw) = Raise e
                /\ exn_cls e = ValueError).
Proof.
  split.
  - unfold read_SGHS_PROJECTS.
    assert (Hne : String.eqb (raw ++ ",") EmptyString = false)
      by now destruct raw.
    rewrite Hne. destruct (split_on_trailing raw) as (w & l & ->).
    destruct (rmap_snoc_raises py_int (w :: l) EmptyString _ eq_refl)
      as (e & He).
    cbn [app] in He.
    exists e. rewrite He. split; [reflexivity|].
    now apply (rmap_py_int_raises _ _ He).
  - unfold read_SGHS_PROJECTS. cbn [append String.eqb split_on Ascii.eqb Bool.eqb].
    cbn [rmap]. change (py_int EmptyString) with
      (@Raise Z (Exn ValueError ("invalid literal for int() with base 10: "
                                   ++ repr_str EmptyString))).
    cbn [rbind]. eexists. split; reflexivity.
Qed.

Lemma allow_list_round_trip_witness :
  read_SGHS_PROJECTS "5,12,-952" = Ret (Some [5; 12; -952]%Z).
Proof. apply (allow_list_round_trip [5; 12; -952]%Z). discriminate. Defined.

(* ===================================================================== *)
(** ** The callback outside the resolved path                             *)
(* ===================================================================== *)

(** X4.  An event whose project is not in a non-empty allow-list is
    dropped: after the preamble (and the capture of the last event, when
    configured) the callback returns without bootstrap, lookup or
    command. *)
Theorem project_not_allowed_is_skipped (W : World) (config : Config)
    (event name project_id : pyval) (allow : list Z) :
  project_name_from_event event = Ret name ->
  get_project_id event = Ret project_id ->
  SGHS_PROJECTS config = Some allow ->
  existsb (py_eq_int project_id) allow = false ->
  last_event_saved W config ->
  shothammer W config event = (preamble config event name, Ret tt).
Proof.
  intros Hname Hpid Hallow Hout Hlast.
  unfold shothammer, preamble, last_event_saved in *.
  rewrite Hname, Hpid, (bind_lift_ret project_id). cbv beta.
  rewrite Hallow. unfold py_in. rewrite Hout, capture_event_run.
  now destruct (CAPTURE_LAST_EVENT config); [rewrite (Hlast eq_refl)|].
Qed.

(** X5.  With the capture of the last event switched on, every event that
    has a project is written to [LAST_EVENT_FILE] before the allow-list is
    looked at and before anything else is called. *)
Theorem last_event_is_captured_first (W : World) (config : Config)
    (event name : pyval) :
  CAPTURE_LAST_EVENT config = true ->
  project_name_from_event event = Ret name ->
  exists rest,
    fst (shothammer W config event)
    = ([EPprint event; ELog EventLogger DEBUG "None";
        ELog EventLogger DEBUG (py_str name);
        EOpenDump (LAST_EVENT_FILE config) event] ++ rest)%list.
Proof.
  intros Hcap Hname. unfold shothammer.
  rewrite Hname, Hcap, capture_event_run.
  destruct (open_dump W (LAST_EVENT_FILE config));
    cbn [bind emit log lift ret raise try_except fst snd app].
  - exists []. reflexivity.
  - match goal with
    | |- context [bind ?m ?k] => destruct (bind m k) as [t r]
    end. exists t. reflexivity.
Qed.

(** X6.  When that file cannot be written the callback stops there: the
    error of the write is raised, and no engine is bootstrapped. *)
Theorem last_event_write_failure_is_fatal (W : World) (config : Config)
    (event name : pyval) (e : exn) :
  CAPTURE_LAST_EVENT config = true ->
  project_name_from_event event = Ret name ->
  open_dump W (LAST_EVENT_FILE config) = Some e ->
  shothammer W config event
  = ([EPprint event; ELog EventLogger DEBUG "None";
      ELog EventLogger DEBUG (py_str name);
      EOpenDump (LAST_EVENT_FILE config) event], Raise e).
Proof.
  intros Hcap Hname Hw. unfold shothammer.
  now rewrite Hname, Hcap, capture_event_run, Hw.
Qed.

(** X7.  Only a TypeError counts as a missing project: when reading the
    project name fails otherwise (a KeyError of an event without project
    entry or of a project without name), the error goes to the caller and
    nothing is captured or looked up. *)
Theorem missing_key_is_not_handled (W : World) (config : Config)
    (event : pyval) (e : exn) :
  project_name_from_event event = Raise e ->
  exn_class_eqb (exn_cls e) TypeError = false ->
  shothammer W config event
  = ([EPprint event; ELog EventLogger DEBUG "None"], Raise e).
Proof.
  intros Hname Hcls. unfold shothammer. rewrite Hname.
  cbn [bind emit log lift ret raise try_except fst snd app].
  now rewrite Hcls.
Qed.

Lemma project_none_fmt (z : Z) :
  py_mod "Project is none in event from shot %i" [PInt z]
  = Ret ("Project is none in event from shot " ++ str_of_Z z).
Proof. simpl. now rewrite append_empty_r. Qed.

(** X8.  An event without project makes no call besides the printing of
    the event, whatever its shot code is; and when the shot code is a
    number the warning is logged and the callback returns. *)
Theorem null_project_makes_no_call (W : World) (config : Config)
    (event : pyval) :
  getitem event "project" = Ret PNone ->
  calls (fst (shothammer W config event)) = [CPprint]
  /\ (forall z, get_shot_code event = Ret (PInt z) ->
        shothammer W config event
        = ([EPprint event; ELog EventLogger DEBUG "None";
            ELog EventLogger WARNING
                 ("Project is none in event from shot " ++ str_of_Z z)],
           Ret tt)).
Proof.
  intros Hproject.
  unfold shothammer, project_name_from_event, getitem2.
  rewrite Hproject. split.
  - destruct (get_shot_code event) as [[| z | s | l | kvs | d]|e];
      try reflexivity.
  - intros z ->. rewrite bind_lift_ret.
    rewrite (log_fmt_run _ _ _ _ _ (project_none_fmt z)). reflexivity.
Qed.

(** X9.  A path that is empty (or any other false value) is no path: the
    callback returns without touching a tag. *)
Theorem false_path_issues_no_command (W : World) (config : Config)
    (event path : pyval) :
  in_scope config event -> last_event_saved W config ->
  snd (bootstrap_engine_to_shot_path W event) = Ret path ->
  py_truthy path = false ->
  commands (fst (shothammer W config event)) = []
  /\ snd (shothammer W config event) = Ret tt.
Proof.
  intros Hs Hl Hpath Hfalse.
  destruct (shothammer_trace W config event Hs Hl) as (name & _ & -> & ->).
  rewrite Hpath. unfold reconcile. rewrite Hfalse.
  destruct (preamble_projections config event name) as (_ & _ & Pc & _).
  rewrite !commands_app, Pc, (bootstrap_no_command W event). now split.
Qed.

(* ===================================================================== *)
(** ** Reconciliation                                                     *)
(* ===================================================================== *)

Lemma same_calls_refl {A} (m : M A) : same_calls m m.
Proof. now split. Qed.

Lemma same_calls_bind {A B} (m m' : M A) (f f' : A -> M B) :
  same_calls m m' -> (forall a, same_calls (f a) (f' a)) ->
  same_calls (bind m f) (bind m' f').
Proof.
  intros [Ht Hr] Hf. destruct m as [t r], m' as [t' r']. simpl in *.
  subst r'. destruct r as [a|e]; [|now split].
  destruct (Hf a) as [Hta Hra]. unfold same_calls. simpl.
  destruct (f a), (f' a). simpl in *.
  now rewrite !filter_app, Ht, Hta.
Qed.

Lemma same_calls_try {A} (m m' : M A) (cls : exn_class) (h h' : exn -> M A) :
  same_calls m m' -> (forall e, same_calls (h e) (h' e)) ->
  same_calls (try_except m cls h) (try_except m' cls h').
Proof.
  intros [Ht Hr] Hh. destruct m as [t r], m' as [t' r']. simpl in *.
  subst r'. destruct r as [a|e]; [now split|].
  unfold same_calls. simpl.
  destruct (exn_class_eqb (exn_cls e) cls); [|now split].
  destruct (Hh e) as [Hte Hre]. destruct (h e), (h' e). simpl in *.
  now rewrite !filter_app, Ht, Hte.
Qed.

Lemma same_calls_for_each {A} (l : list A) (body body' : A -> M unit) :
  (forall x, same_calls (body x) (body' x)) ->
  same_calls (for_each l body) (for_each l body').
Proof.
  intros Hb. induction l as [|x l IH]; [apply same_calls_refl|].
  cbn [for_each]. apply same_calls_bind; auto.
Qed.

Lemma same_calls_keyword_add (W : World) (config : Config)
    (r : string -> string * string) (path keyword : pyval) (recursive : bool) :
  same_calls (hs_keyword_add (with_run r W) config path keyword recursive)
             (hs_keyword_add W config path keyword recursive).
Proof.
  destruct keyword as [| |kw| | |]; try apply same_calls_refl.
  rewrite !hs_keyword_add_run.
  destruct (prefixb (SGHS_TAG_NAMESPACE config) kw); now split.
Qed.

Lemma same_calls_keyword_delete (W : World) (config : Config)
    (r : string -> string * string) (path keyword : pyval) (recursive : bool) :
  same_calls (hs_keyword_delete (with_run r W) config path keyword recursive)
             (hs_keyword_delete W config path keyword recursive).
Proof.
  destruct keyword as [| |kw| | |]; try apply same_calls_refl.
  rewrite !hs_keyword_delete_run.
  destruct (prefixb (SGHS_TAG_NAMESPACE config) kw); now split.
Qed.

Lemma bootstrap_with_run (W : World) (r : string -> string * string)
    (event : pyval) :
  bootstrap_engine_to_shot_path (with_run r W) event
  = bootstrap_engine_to_shot_path W event.
Proof. reflexivity. Qed.

Lemma capture_with_run (W : World) (r : string -> string * string)
    (event : pyval) (f : string) :
  capture_event (with_run r W) event f = capture_event W event f.
Proof. reflexivity. Qed.

Ltac calls_steps :=
  repeat first
    [ match goal with
      | |- same_calls ?m ?m' => constr_eq m m'; apply same_calls_refl
      | |- same_calls (hs_keyword_add _ _ _ _ _) (hs_keyword_add _ _ _ _ _) =>
          apply same_calls_keyword_add
      | |- same_calls (hs_keyword_delete _ _ _ _ _)
                      (hs_keyword_delete _ _ _ _ _) =>
          apply same_calls_keyword_delete
      | |- same_calls (bind _ _) (bind _ _) => apply same_calls_bind
      | |- same_calls (try_except _ _ _) (try_except _ _ _) =>
          apply same_calls_try
      | |- same_calls (for_each _ _) (for_each _ _) =>
          apply same_calls_for_each
      | |- same_calls (if ?b then _ else _) (if ?b then _ else _) => destruct b
      | |- forall _, _ => intro
      end ].

(** X10.  What a command prints or returns has no influence: with any
    other shell the callback makes the same calls, issues the same
    commands in the same order and ends in the same way; only the log
    records of the outputs differ. *)
Theorem outcome_ignores_command_output (W : World) (config : Config)
    (event : pyval) (r : string -> string * string) :
  filter (fun e => negb (is_log e)) (fst (shothammer (with_run r W) config event))
  = filter (fun e => negb (is_log e)) (fst (shothammer W config event))
  /\ snd (shothammer (with_run r W) config event)
     = snd (shothammer W config event).
Proof.
  change (same_calls (shothammer (with_run r W) config event)
                     (shothammer W config event)).
  unfold shothammer, add_tags, remove_tags.
  rewrite bootstrap_with_run, capture_with_run.
  calls_steps.
Qed.

Lemma setting_any_fmt (tag path : pyval) :
  exists msg, py_mod "Setting keyword %s on path %s" [tag; path] = Ret msg.
Proof. simpl. eexists. reflexivity. Qed.

Lemma add_loop_aborts (W : World) (config : Config) (path v : pyval)
    (before : list string) (after : list pyval) (e : exn) :
  startswith v (SGHS_TAG_NAMESPACE config) = Raise e ->
  let m := for_each (map PStr before ++ v :: after) (fun tag =>
             log_fmt EventLogger INFO "Setting keyword %s on path %s"
                     [tag; path] ;;
             hs_keyword_add W config path tag false) in
  snd m = Raise e
  /\ commands (fst m)
     = map (fun kw => keyword_command "add" false kw path)
           (filter (prefixb (SGHS_TAG_NAMESPACE config)) before).
Proof.
  intros Hv. induction before as [|kw before [IHs IHc]].
  - cbn [map app for_each filter].
    destruct (setting_any_fmt v path) as (msg & Hmsg).
    rewrite (log_fmt_run _ _ _ _ _ Hmsg).
    unfold hs_keyword_add. rewrite Hv. now split.
  - cbn [map app for_each filter].
    destruct (setting_fmt kw path) as (msg & Hmsg).
    rewrite (log_fmt_run _ _ _ _ _ Hmsg), hs_keyword_add_run.
    destruct (for_each (map PStr before ++ v :: after) _) as [t r].
    simpl in IHs, IHc.
    destruct (prefixb (SGHS_TAG_NAMESPACE config) kw); simpl;
      rewrite IHc; now subst r.
Qed.

Section Reconciled.

Variables (W : World) (config : Config) (event path : pyval).
Hypothesis Hscope : in_scope config event.
Hypothesis Hlast : last_event_saved W config.
Hypothesis Hpath : snd (bootstrap_engine_to_shot_path W event) = Ret path.
Hypothesis Htruthy : py_truthy path = true.

Lemma reconciled_run :
  commands (fst (shothammer W config event))
  = commands (fst (reconcile W config event path))
  /\ snd (shothammer W config event) = snd (reconcile W config event path).
Proof.
  destruct (shothammer_trace W config event Hscope Hlast)
    as (name & _ & -> & ->).
  rewrite Hpath.
  destruct (preamble_projections config event name) as (_ & _ & Pc & _).
  now rewrite !commands_app, Pc, (bootstrap_no_command W event).
Qed.

(** X11.  The names of the added tags are all read before the first
    command: when one entry of [meta.added] has no readable name, the
    callback raises and no command at all has been issued, not even for
    the entries before it. *)
Theorem unreadable_added_tag_stops_everything (e : exn) :
  tag_names event "added" = Raise e ->
  commands (fst (shothammer W config event)) = []
  /\ snd (shothammer W config event) = Raise e.
Proof.
  intros Hadded. destruct reconciled_run as [-> ->].
  unfold reconcile, add_tags. now rewrite Htruthy, Hadded.
Qed.

(** X12.  Reconciliation is not transactional: when the removed tags
    cannot be read, the callback raises after every addition has been
    issued. *)
Theorem unreadable_removed_tags_keep_additions (added : list string)
    (e : exn) :
  tag_names event "added" = Ret (map PStr added) ->
  tag_names event "removed" = Raise e ->
  commands (fst (shothammer W config event))
  = map (fun kw => keyword_command "add" false kw path)
        (filter (prefixb (SGHS_TAG_NAMESPACE config)) added)
  /\ snd (shothammer W config event) = Raise e.
Proof.
  intros Hadded Hremoved. destruct reconciled_run as [-> ->].
  unfold reconcile, add_tags, remove_tags.
  rewrite Htruthy, Hadded, Hremoved, !bind_lift_ret.
  destruct (tags_to_add_fmt (map PStr added)) as (msg & Hmsg).
  rewrite (log_fmt_run _ _ _ _ _ Hmsg).
  destruct (add_loop W config path added) as [As Ac]. cbv zeta in As, Ac.
  destruct (for_each (map PStr added) _) as [ta ra].
  simpl in *. subst ra. simpl. rewrite commands_app, Ac.
  split; [apply app_nil_r | reflexivity].
Qed.

(** X13.  A tag whose name is not a string stops the loop: the additions
    before it have been issued, the tag raises an AttributeError, and
    neither the later additions nor any removal is carried out. *)
Theorem non_string_tag_aborts_the_loop (before : list string) (v : pyval)
    (after : list pyval) (e : exn) :
  tag_names event "added" = Ret (map PStr before ++ v :: after)%list ->
  startswith v (SGHS_TAG_NAMESPACE config) = Raise e ->
  commands (fst (shothammer W config event))
  = map (fun kw => keyword_command "add" false kw path)
        (filter (prefixb (SGHS_TAG_NAMESPACE config)) before)
  /\ snd (shothammer W config event) = Raise e
  /\ exn_cls e = AttributeError.
Proof.
  intros Hadded Hv. destruct reconciled_run as [-> ->].
  unfold reconcile, add_tags.
  rewrite Htruthy, Hadded, !bind_lift_ret.
  destruct (tags_to_add_fmt (map PStr before ++ v :: after)) as (msg & Hmsg).
  rewrite (log_fmt_run _ _ _ _ _ Hmsg).
  destruct (add_loop_aborts W config path v before after e Hv) as [As Ac].
  cbv zeta in As, Ac.
  destruct (for_each (map PStr before ++ v :: after) _) as [ta ra].
  simpl in *. subst ra. simpl. rewrite Ac.
  repeat split.
  destruct v; simpl in Hv; try discriminate; now injection Hv as <-.
Qed.

End Reconciled.

(* ===================================================================== *)
(** ** Path resolution, every run                                         *)
(* ===================================================================== *)

Lemma calls_app (t1 t2 : trace) :
  calls (t1 ++ t2) = (calls t1 ++ calls t2)%list.
Proof. apply flat_map_app. Qed.

Lemma exn_class_eqb_eq (a b : exn_class) :
  exn_class_eqb a b = true -> a = b.
Proof.
  destruct a, b; simpl; try discriminate; try reflexivity.
  intros H. apply String.eqb_eq in H. now subst.
Qed.

Lemma try_except_uncaught {A} (t : trace) (e : exn) (cls : exn_class)
    (h : exn -> M A) :
  exn_class_eqb (exn_cls e) cls = false ->
  try_except (t, Raise e) cls h = (t, Raise e).
Proof. intros H. unfold try_except. now rewrite H. Qed.

Lemma read_or_none_cases (what : string) (r : result pyval) :
  In what ["Shot"; "Sequence"; "Episode"] ->
  (exists ws v, read_or_none what r = (ws, Ret v) /\ only_warnings ws)
  \/ (exists e, read_or_none what r = ([], Raise e)).
Proof.
  intros Hw. destruct (none_on_TypeError r) as [v|e] eqn:Hr.
  - left. destruct (read_or_none_run what r v Hw Hr) as (ws & E & L).
    now exists ws, v.
  - right. destruct r as [x|e0]; [discriminate|]. cbn in Hr.
    destruct (exn_class_eqb (exn_cls e0) TypeError) eqn:Hc; [discriminate|].
    exists e0. unfold read_or_none, lift. now apply try_except_uncaught.
Qed.

(** The template call, in every case: either no file is written, or the
    template raised a TankError and the event went to the file named after
    its id and date. *)
Lemma compose_cases (W : World) (event shot_id : pyval) (tmpl : Template)
    (c s e : pyval) :
  let m := compose_or_capture W event shot_id tmpl c s e in
  (calls (fst m) = [CApplyFields] /\ captures (fst m) = []
   /\ logged EventLogger ERROR (fst m) = []
   /\ (forall p, snd m = Ret p ->
         apply_fields tmpl (field_map c s e) = Ret p))
  \/ (exists d err,
        apply_fields tmpl (field_map c s e) = Raise err
        /\ exn_cls err = TankError
        /\ getitem event "created_at" = Ret (PDatetime d)
        /\ calls (fst m) = [CApplyFields; CCapture]
        /\ captures (fst m) = [(failure_filename shot_id d, event)]
        /\ (forall p, snd m = Ret p -> p = PNone)).
Proof.
  intros m. subst m.
  destruct (apply_fields tmpl (field_map c s e)) as [p|err] eqn:Happly.
  - left. rewrite (compose_returns W event shot_id tmpl c s e p Happly).
    repeat split; try reflexivity. now intros q [= <-].
  - destruct (exn_class_eqb (exn_cls err) TankError) eqn:Hcls.
    + apply exn_class_eqb_eq in Hcls.
      destruct (getitem event "created_at") as [[| | | | |d]|e0] eqn:Htime;
        [| | | | |
         right; exists d, err;
         rewrite (compose_captures W event shot_id tmpl c s e err d
                    Happly Hcls Htime);
         repeat split; try reflexivity; try assumption;
         intros q Hq; cbn [snd] in Hq;
         destruct (open_dump W (failure_filename shot_id d));
           [discriminate | now injection Hq as <-]
        |];
        left; unfold compose_or_capture, field_map in *; cbv zeta;
        rewrite Happly, bind_emit;
        change (fst (bind (lift (Raise err)) _)) with (@nil effect);
        change (snd (bind (lift (Raise err)) _)) with (@Raise pyval err);
        rewrite try_except_caught by (now rewrite Hcls);
        rewrite Htime; repeat split; try reflexivity; discriminate.
    + left. unfold compose_or_capture, field_map in *. cbv zeta.
      rewrite Happly, bind_emit.
      change (fst (bind (lift (Raise err)) _)) with (@nil effect).
      change (snd (bind (lift (Raise err)) _)) with (@Raise pyval err).
      rewrite (try_except_uncaught _ _ _ _ Hcls).
      repeat split; try reflexivity; discriminate.
Qed.

Ltac project_calls :=
  unfold calls, captures, logged; simpl;
  repeat rewrite flat_map_app;
  repeat match goal with
    | H : only_warnings ?w |- context [flat_map ?f ?w] =>
        rewrite (warnings_silent f w H) by reflexivity
    end;
  simpl.

(** Path resolution up to the template call: either it raises before the
    template is called, or it reaches the call with the id of the event. *)
Lemma bootstrap_cases (W : World) (event : pyval) :
  (exists t e,
     bootstrap_engine_to_shot_path W event = (t, Raise e)
     /\ In (calls t) [[]; [CBootstrap]; [CBootstrap; CFindOne]]
     /\ captures t = [] /\ logged EventLogger ERROR t = [])
  \/ (exists shot_id tmpl c s ep t0,
        getitem2 event "entity" "id" = Ret shot_id
        /\ calls t0 = [CBootstrap; CFindOne]
        /\ captures t0 = [] /\ logged EventLogger ERROR t0 = []
        /\ bootstrap_engine_to_shot_path W event
           = bind (t0, Ret tt)
                  (fun _ =>
                     result <- compose_or_capture W event shot_id tmpl
                                                  c s ep ;;
                     emit EDestroy ;; ret result)).
Proof.
  unfold bootstrap_engine_to_shot_path, log_fmt, lift. cbv zeta.
  destruct (getitem2 event "entity" "id") as [shot_id|e0] eqn:Hshot; simpl;
    [|left; eexists; eexists; split; [reflexivity|]; simpl; auto].
  destruct (bootstrap_engine W "tk-shell" _) as [engine|e0]; simpl;
    [|left; eexists; eexists; split; [reflexivity|]; simpl; auto].
  destruct (templates_get "work_shot_area" (templates engine)) as [tmpl|e0];
    simpl; [|left; eexists; eexists; split; [reflexivity|]; simpl; auto].
  destruct (find_one engine "Shot" _ _) as [full_shot|e0]; simpl;
    [|left; eexists; eexists; split; [reflexivity|]; simpl; auto 6].
  destruct (read_or_none_cases "Shot" (getitem full_shot "code")
              (or_introl eq_refl))
    as [(w1 & c & E1 & L1) | (e0 & E1)]; rewrite E1; simpl;
    [|left; eexists; eexists; split; [reflexivity|]; simpl; auto 6].
  destruct (read_or_none_cases "Sequence" (getitem full_shot "sg_sequence")
              (or_intror (or_introl eq_refl)))
    as [(w2 & s & E2 & L2) | (e0 & E2)]; rewrite E2; simpl;
    [|left; eexists; eexists; split; [reflexivity|];
      repeat split; project_calls; auto 6].
  destruct (read_or_none_cases "Episode"
              (getitem2 full_shot "sg_episode" "name")
              (or_intror (or_intror (or_introl eq_refl))))
    as [(w3 & ep & E3 & L3) | (e0 & E3)]; rewrite E3; simpl;
    [|left; eexists; eexists; split; [reflexivity|];
      repeat split; project_calls; auto 6].
  right. exists shot_id, tmpl, c, s, ep.
  destruct (bind (compose_or_capture W event shot_id tmpl c s ep) _)
    as [tc rc].
  eexists. split; [reflexivity|].
  split; [|split; [|split]]; [| | |f_equal; split_trace];
    project_calls; reflexivity.
Qed.

(** X14.  Every run of path resolution calls its collaborators in one
    order: bootstrap, lookup, template call, then the capture (taken only
    after the template call) and the destroy; each is called at most once,
    and a run that raises stops somewhere on the way. *)
Theorem resolution_follows_the_protocol (W : World) (event : pyval) :
  In (calls (fst (bootstrap_engine_to_shot_path W event))) resolution_protocol.
Proof.
  destruct (bootstrap_cases W event)
    as [(t & e & -> & Hin & _) |
        (shot_id & tmpl & c & s & ep & t0 & _ & Hcalls & _ & _ & ->)].
  - cbn [fst]. unfold resolution_protocol.
    destruct Hin as [<- | [<- | [<- | []]]]; simpl; auto.
  - destruct (destroy_tail (compose_or_capture W event shot_id tmpl c s ep))
      as [Ef Es].
    destruct (bind (compose_or_capture W event shot_id tmpl c s ep) _)
      as [tc rc]. cbn [fst snd] in *. subst tc.
    cbn [bind fst]. rewrite !calls_app, Hcalls.
    destruct (compose_cases W event shot_id tmpl c s ep)
      as [(-> & _) | (d & err & _ & _ & _ & -> & _)];
      destruct (snd (compose_or_capture W event shot_id tmpl c s ep));
      unfold resolution_protocol; simpl; auto 10.
Qed.

(** X15.  Path resolution writes at most one file: the event itself,
    under the name built from the entity id and the date of that event. *)
Theorem resolution_captures_only_its_event (W : World) (event : pyval) :
  captures (fst (bootstrap_engine_to_shot_path W event)) = []
  \/ exists shot_id d,
       getitem2 event "entity" "id" = Ret shot_id
       /\ getitem event "created_at" = Ret (PDatetime d)
       /\ captures (fst (bootstrap_engine_to_shot_path W event))
          = [(failure_filename shot_id d, event)].
Proof.
  destruct (bootstrap_cases W event)
    as [(t & e & -> & _ & Hcap & _) |
        (shot_id & tmpl & c & s & ep & t0 & Hid & _ & Hcap & _ & ->)].
  - now left.
  - destruct (destroy_tail (compose_or_capture W event shot_id tmpl c s ep))
      as [Ef Es].
    destruct (bind (compose_or_capture W event shot_id tmpl c s ep) _)
      as [tc rc]. cbn [fst snd] in *. subst tc.
    cbn [bind fst]. rewrite !captures_app, Hcap.
    destruct (compose_cases W event shot_id tmpl c s ep)
      as [(_ & -> & _) | (d & err & _ & _ & Htime & _ & -> & _)].
    + left.
      now destruct (snd (compose_or_capture W event shot_id tmpl c s ep)).
    + right. exists shot_id, d. repeat split; try assumption.
      now destruct (snd (compose_or_capture W event shot_id tmpl c s ep)).
Qed.

(** X16.  Only a TankError is a composition failure: any other error of
    the template call leaves path resolution as it is, with no capture,
    no error record and no destroy. *)
Theorem other_template_errors_propagate (W : World) (event shot_id : pyval)
    (tmpl : Template) (full_shot code sequence_name episode_name : pyval)
    (err : exn) :
  resolves W event shot_id tmpl full_shot ->
  record_fields full_shot code sequence_name episode_name ->
  apply_fields tmpl (field_map code sequence_name episode_name) = Raise err ->
  exn_class_eqb (exn_cls err) TankError = false ->
  snd (bootstrap_engine_to_shot_path W event) = Raise err
  /\ captures (fst (bootstrap_engine_to_shot_path W event)) = []
  /\ logged EventLogger ERROR (fst (bootstrap_engine_to_shot_path W event)) = []
  /\ destroys (fst (bootstrap_engine_to_shot_path W event)) = 0.
Proof.
  intros Hres Hrec Happly Hcls.
  destruct (resolution_run W event shot_id tmpl full_shot code sequence_name
              episode_name Hres Hrec)
    as (t0 & -> & _ & _ & _ & _ & Hcap & Hd & Hlog).
  assert (Hc : compose_or_capture W event shot_id tmpl code sequence_name
                                  episode_name
               = ([EApplyFields (field_map code sequence_name episode_name)],
                  Raise err)).
  { unfold compose_or_capture, field_map in *. cbv zeta.
    rewrite Happly, bind_emit.
    change (fst (bind (lift (Raise err)) _)) with (@nil effect).
    change (snd (bind (lift (Raise err)) _)) with (@Raise pyval err).
    now apply try_except_uncaught. }
  rewrite Hc. cbn [bind fst snd].
  rewrite captures_app, logged_app, destroys_app, Hcap, Hlog, Hd.
  now repeat split.
Qed.

(* ===================================================================== *)
(** ** The callback, every run                                            *)
(* ===================================================================== *)

Lemma bootstrap_released (W : World) (event : pyval) :
  released_on_return 1 (bootstrap_engine_to_shot_path W event).
Proof.
  unfold bootstrap_engine_to_shot_path.
  repeat match goal with
    | |- released_on_return 1 (bind (emit (EBootstrapEngine _ _)) _) =>
        apply bootstrap_then_released
    | |- released_on_return 0 (emit EDestroy ;; ret _) =>
        apply destroy_then_return
    | |- released_on_return _ (bind _ _) =>
        apply quiet_bind_released;
        [ quiet_steps ltac:(idtac; match goal with
                            | |- _ (fst (compose_or_capture _ _ _ _ _ _ _)) =>
                                apply compose_or_capture_quiet
                            | |- _ (fst (read_or_none _ _)) =>
                                apply read_or_none_quiet
                            end)
        | intro ]
    end.
Qed.

Lemma reconcile_quiet (W : World) (config : Config) (event path : pyval) :
  quiet (fst (reconcile W config event path)).
Proof.
  unfold reconcile, add_tags, remove_tags, hs_keyword_add, hs_keyword_delete,
    subprocess_run.
  quiet_steps fail.
Qed.

(** Either no command is issued, or the event is in scope and path
    resolution has returned. *)
Lemma shothammer_cases (W : World) (config : Config) (event : pyval) :
  commands (fst (shothammer W config event)) = []
  \/ (in_scope config event /\ last_event_saved W config
      /\ exists path, snd (bootstrap_engine_to_shot_path W event) = Ret path).
Proof.
  destruct (project_name_from_event event) as [name|[cls msg]] eqn:Hname.
  - destruct (get_project_id event) as [pid|e] eqn:Hpid.
    + destruct (SGHS_PROJECTS config) as [allow|] eqn:Hallow.
      * destruct (existsb (py_eq_int pid) allow) eqn:Hin.
        -- destruct (CAPTURE_LAST_EVENT config) eqn:Hcap.
           ++ destruct (open_dump W (LAST_EVENT_FILE config)) as [e|] eqn:Hw.
              ** left. unfold shothammer, capture_event.
                 rewrite Hname, Hcap, Hw. reflexivity.
              ** assert (Hs : in_scope config event)
                   by (split; [now exists name | now exists pid, allow]).
                 assert (Hl : last_event_saved W config) by now intros _.
                 destruct (snd (bootstrap_engine_to_shot_path W event))
                   as [path|e] eqn:Hb; [right; eauto|left].
                 destruct (shothammer_trace W config event Hs Hl)
                   as (n & _ & -> & _).
                 destruct (preamble_projections config event n)
                   as (_ & _ & Pc & _).
                 rewrite Hb, !commands_app, Pc.
                 now rewrite (bootstrap_no_command W event).
           ++ assert (Hs : in_scope config event)
                by (split; [now exists name | now exists pid, allow]).
              assert (Hl : last_event_saved W config)
                by (intros H; rewrite Hcap in H; discriminate).
              destruct (snd (bootstrap_engine_to_shot_path W event))
                as [path|e] eqn:Hb; [right; eauto|left].
              destruct (shothammer_trace W config event Hs Hl)
                as (n & _ & -> & _).
              destruct (preamble_projections config event n)
                as (_ & _ & Pc & _).
              rewrite Hb, !commands_app, Pc.
              now rewrite (bootstrap_no_command W event).
        -- left. unfold shothammer, capture_event, py_in.
           rewrite Hname, Hpid, (bind_lift_ret pid). cbv beta.
           rewrite Hallow, Hin.
           destruct (CAPTURE_LAST_EVENT config);
             [destruct (open_dump W (LAST_EVENT_FILE config))|]; reflexivity.
      * left. unfold shothammer, capture_event, py_in.
        rewrite Hname, Hpid, (bind_lift_ret pid). cbv beta. rewrite Hallow.
        destruct (CAPTURE_LAST_EVENT config);
          [destruct (open_dump W (LAST_EVENT_FILE config))|]; reflexivity.
    + left. unfold shothammer, capture_event. rewrite Hname, Hpid.
      destruct (CAPTURE_LAST_EVENT config);
        [destruct (open_dump W (LAST_EVENT_FILE config))|]; reflexivity.
  - left. unfold shothammer. rewrite Hname.
    destruct cls;
      try reflexivity;
      destruct (get_shot_code event) as [[| | | | |]|]; reflexivity.
Qed.

(** X17.  A command is never issued while an engine is in use: when the
    callback issues any command, one engine has been bootstrapped and
    destroyed before the first of them, and none is bootstrapped or
    destroyed afterwards. *)
Theorem commands_come_after_the_destroy (W : World) (config : Config)
    (event : pyval) :
  commands (fst (shothammer W config event)) = []
  \/ exists t1 t2,
       fst (shothammer W config event) = (t1 ++ EDestroy :: t2)%list
       /\ commands t1 = [] /\ length (bootstraps t1) = 1 /\ destroys t1 = 0
       /\ bootstraps t2 = [] /\ destroys t2 = 0.
Proof.
  destruct (shothammer_cases W config event)
    as [H | (Hs & Hl & path & Hpath)]; [now left | right].
  destruct (shothammer_trace W config event Hs Hl) as (name & _ & -> & _).
  pose proof (bootstrap_released W event) as Hrel.
  pose proof (bootstrap_no_command W event) as Hnc.
  unfold released_on_return, no_command in *. rewrite Hpath in *.
  destruct Hrel as (t0 & E0 & D0 & B0). rewrite E0 in *.
  rewrite commands_app in Hnc. apply app_eq_nil in Hnc. destruct Hnc as [Hnc _].
  destruct (reconcile_quiet W config event path) as [Dq Bq].
  destruct (preamble_projections config event name) as (_ & _ & Pc & _).
  exists (preamble config event name ++ t0)%list,
         (fst (reconcile W config event path)).
  repeat split; auto.
  - now rewrite <- !app_assoc.
  - now rewrite commands_app, Pc, Hnc.
  - rewrite bootstraps_app, length_app, B0. unfold preamble.
    now destruct (CAPTURE_LAST_EVENT config).
  - rewrite destroys_app, D0. unfold preamble.
    now destruct (CAPTURE_LAST_EVENT config).
Qed.

Lemma pickles_only_nil (event : pyval) : pickles_only event [].
Proof. constructor. Qed.

Lemma pickles_only_app (event : pyval) (t1 t2 : trace) :
  pickles_only event t1 -> pickles_only event t2 ->
  pickles_only event (t1 ++ t2).
Proof.
  unfold pickles_only. rewrite captures_app. intros. now apply Forall_app.
Qed.

(** X18.  Whatever the callback pickles is the event it was called with,
    unchanged: in the last-event file as in a failure capture. *)
Theorem only_the_event_is_pickled (W : World) (config : Config)
    (event : pyval) :
  Forall (fun c => snd c = event) (captures (fst (shothammer W config event))).
Proof.
  change (pickles_only event (fst (shothammer W config event))).
  unfold shothammer, bootstrap_engine_to_shot_path, compose_or_capture,
    read_or_none, capture_event, add_tags, remove_tags, hs_keyword_add,
    hs_keyword_delete, subprocess_run.
  trace_inv (pickles_only event) (pickles_only_nil event)
            (pickles_only_app event) fail;
    repeat constructor.
Qed.

(* ===================================================================== *)
(** ** The record, the generic tag command and the episode code           *)
(* ===================================================================== *)

(** X19.  An episode that is not a link (a dict with a name) counts as no
    episode: when the record gives [sg_episode] as [None], as plain text
    or as any other value, the template is called with [Episode: None],
    the code and the sequence being passed on as they are. *)
Theorem episode_that_is_no_link_is_dropped (W : World) (config : Config)
    (event shot_id : pyval) (tmpl : Template)
    (record : list (string * pyval)) (code sequence episode : pyval) :
  in_scope config event -> last_event_saved W config ->
  resolves W event shot_id tmpl (PDict record) ->
  dict_get "code" record = Some code ->
  dict_get "sg_sequence" record = Some sequence ->
  dict_get "sg_episode" record = Some episode ->
  (forall link, episode <> PDict link) ->
  template_calls (fst (shothammer W config event))
  = [field_map code sequence PNone].
Proof.
  intros Hs Hl Hres Hcode Hseq Hepi Hlink.
  apply (resolution_calls W config event Hs Hl shot_id tmpl (PDict record)
           code sequence PNone Hres).
  unfold record_fields, record_code, record_sequence_name,
    record_episode_name, getitem2, getitem.
  rewrite Hcode, Hseq, Hepi. repeat split.
  destruct episode; try reflexivity. now elim (Hlink kvs).
Qed.

(** X20.  The generic tag command has no filter: for every path, tag and
    value, recursive or not, [hs_tag_set] issues exactly one command, with
    the value between single quotes, and returns. *)
Theorem hs_tag_set_always_runs (W : World) (path tag value : pyval)
    (recursive : bool) :
  snd (hs_tag_set W path tag value recursive) = Ret tt
  /\ commands (fst (hs_tag_set W path tag value recursive))
     = ["hs tag set " ++ (if recursive then "-r " else EmptyString)
          ++ "-e '" ++ py_str value ++ "' " ++ py_str tag ++ " "
          ++ py_str path].
Proof.
  unfold hs_tag_set. destruct recursive; simpl; now rewrite append_empty_r.
Qed.

Lemma split_on_head (sep : ascii) (s : string) :
  exists w ws,
    split_on sep s = w :: ws
    /\ contains_char sep w = false
    /\ (s = w \/ exists rest, s = w ++ String sep rest).
Proof.
  induction s as [|c s (w & ws & E & Hw & Hs)].
  - exists EmptyString, []. repeat split. now left.
  - cbn [split_on]. destruct (Ascii.eqb c sep) eqn:Hc.
    + apply Ascii.eqb_eq in Hc. subst c.
      exists EmptyString, (split_on sep s). repeat split.
      right. now exists s.
    + rewrite E. exists (String c w), ws. repeat split.
      * cbn [contains_char]. now rewrite Ascii.eqb_sym, Hc, Hw.
      * destruct Hs as [-> | (rest & ->)]; [now left|].
        right. now exists rest.
Qed.

(** X21.  The episode code of an event is its shot code up to the first
    underscore (the whole code when it has none): [get_episode_code]
    returns a text without underscore that is the code itself or is
    followed in it by an underscore; it never fails on a string, and it
    calls nothing. *)
Theorem episode_code_is_the_first_part (event : pyval) (name : string) :
  get_shot_code event = Ret (PStr name) ->
  exists episode,
    snd (get_episode_code event) = Ret (PStr episode)
    /\ contains_char "_" episode = false
    /\ (name = episode \/ exists rest, name = episode ++ "_" ++ rest)
    /\ calls (fst (get_episode_code event)) = [].
Proof.
  unfold get_shot_code, get_episode_code. intros ->.
  rewrite bind_lift_ret. unfold py_split. rewrite bind_lift_ret.
  destruct (split_on_head "_" name) as (w & ws & -> & Hw & Hs).
  exists w. repeat split; auto.
Qed.

(* ===================================================================== *)
(** ** One shot, one path                                                 *)
(* ===================================================================== *)

Lemma for_shot_nil (sid : pyval) : for_shot sid [].
Proof. split; constructor. Qed.

Lemma for_shot_app (sid : pyval) (t1 t2 : trace) :
  for_shot sid t1 -> for_shot sid t2 -> for_shot sid (t1 ++ t2).
Proof.
  intros [B1 L1] [B2 L2]. unfold for_shot.
  rewrite bootstraps_app, lookups_app. split; now apply Forall_app.
Qed.

(** X22.  The engine is bootstrapped for the shot of the event and for no
    other entity, and the lookup asks for that same shot: every bootstrap
    of a run has the entity [{type: Shot, id}] and every lookup the filter
    [id is id], with the id taken from the event. *)
Theorem bootstrap_and_lookup_share_the_shot (W : World)
    (event shot_id : pyval) :
  getitem2 event "entity" "id" = Ret shot_id ->
  Forall (fun b => b = ("tk-shell",
                        PDict [("type", PStr "Shot"); ("id", shot_id)]))
         (bootstraps (fst (bootstrap_engine_to_shot_path W event)))
  /\ Forall (fun l => l = ("Shot",
                           PList [PList [PStr "id"; PStr "is"; shot_id]],
                           PList [PStr "id"; PStr "type"; PStr "code";
                                  PStr "sg_episode"; PStr "sg_sequence"]))
            (lookups (fst (bootstrap_engine_to_shot_path W event))).
Proof.
  intros Hid.
  change (for_shot shot_id (fst (bootstrap_engine_to_shot_path W event))).
  unfold bootstrap_engine_to_shot_path. rewrite Hid, bind_lift_ret.
  cbv zeta.
  unfold compose_or_capture, read_or_none, capture_event.
  trace_inv (for_shot shot_id) (for_shot_nil shot_id) (for_shot_app shot_id)
            fail;
    split; repeat constructor.
Qed.

Lemma all_on_path_nil (config : Config) (path : pyval) :
  all_on_path config path [].
Proof. constructor. Qed.

Lemma all_on_path_app (config : Config) (path : pyval) (t1 t2 : trace) :
  all_on_path config path t1 -> all_on_path config path t2 ->
  all_on_path config path (t1 ++ t2).
Proof.
  unfold all_on_path. rewrite commands_app. intros. now apply Forall_app.
Qed.

Lemma keyword_add_on_path (W : World) (config : Config) (path tag : pyval) :
  all_on_path config path (fst (hs_keyword_add W config path tag false)).
Proof.
  destruct tag as [| |kw| | |]; try (constructor; fail).
  rewrite hs_keyword_add_run.
  destruct (prefixb (SGHS_TAG_NAMESPACE config) kw) eqn:E; [|constructor].
  constructor; [|constructor]. exists "add", kw. auto.
Qed.

Lemma keyword_delete_on_path (W : World) (config : Config)
    (path tag : pyval) :
  all_on_path config path (fst (hs_keyword_delete W config path tag false)).
Proof.
  destruct tag as [| |kw| | |]; try (constructor; fail).
  rewrite hs_keyword_delete_run.
  destruct (prefixb (SGHS_TAG_NAMESPACE config) kw) eqn:E; [|constructor].
  constructor; [|constructor]. exists "delete", kw. auto.
Qed.

Lemma reconcile_on_path (W : World) (config : Config) (event path : pyval) :
  all_on_path config path (fst (reconcile W config event path)).
Proof.
  unfold reconcile, add_tags, remove_tags.
  trace_inv (all_on_path config path) (all_on_path_nil config path)
            (all_on_path_app config path)
            ltac:(idtac; match goal with
                  | |- _ (fst (hs_keyword_add _ _ _ _ _)) =>
                      apply keyword_add_on_path
                  | |- _ (fst (hs_keyword_delete _ _ _ _ _)) =>
                      apply keyword_delete_on_path
                  end);
    constructor.
Qed.

(** X23.  All commands of a run address one path, the one path resolution
    returned, and none is recursive: each is [hs keyword add] or
    [hs keyword delete] without [-r], for a keyword of the namespace, on
    that path. *)
Theorem commands_address_the_resolved_path (W : World) (config : Config)
    (event : pyval) :
  commands (fst (shothammer W config event)) = []
  \/ exists path,
       snd (bootstrap_engine_to_shot_path W event) = Ret path
       /\ Forall (keyword_command_on config path)
                 (commands (fst (shothammer W config event))).
Proof.
  destruct (shothammer_cases W config event)
    as [H | (Hs & Hl & path & Hpath)]; [now left | right].
  exists path. split; [exact Hpath|].
  destruct (reconciled_run W config event path Hs Hl Hpath) as [-> _].
  apply reconcile_on_path.
Qed.

Lemma bootstrap_and_lookup_share_the_shot_witness :
  Forall (fun b => b = ("tk-shell",
                        PDict [("type", PStr "Shot"); ("id", PInt 9502)]))
         (bootstraps (fst (bootstrap_engine_to_shot_path
            (Scenario.world_with Scenario.sh010 None)
            (Scenario.event_with Scenario.project5 "attribute_change" [] []))))
  /\ Forall (fun l => l = ("Shot",
                           PList [PList [PStr "id"; PStr "is"; PInt 9502]],
                           PList [PStr "id"; PStr "type"; PStr "code";
                                  PStr "sg_episode"; PStr "sg_sequence"]))
            (lookups (fst (bootstrap_engine_to_shot_path
            (Scenario.world_with Scenario.sh010 None)
            (Scenario.event_with Scenario.project5 "attribute_change" [] [])))).
Proof.
  exact (bootstrap_and_lookup_share_the_shot
           (Scenario.world_with Scenario.sh010 None)
           (Scenario.event_with Scenario.project5 "attribute_change" [] [])
           (PInt 9502) eq_refl).
Defined.

(* ===================================================================== *)
(** ** The further properties on the scenario                             *)
(* ===================================================================== *)

(** Project 5 under the allow-list [7]. *)
Lemma project_not_allowed_is_skipped_witness :
  shothammer (Scenario.world_with Scenario.sh010 None)
             (Scenario.config_with (Some [7%Z]))
             (Scenario.event_with Scenario.project5 "attribute_change"
                                  [Scenario.tag "sghs:hero"] [])
  = (preamble (Scenario.config_with (Some [7%Z]))
              (Scenario.event_with Scenario.project5 "attribute_change"
                                   [Scenario.tag "sghs:hero"] [])
              (PStr "demo"),
     Ret tt).
Proof.
  apply (project_not_allowed_is_skipped
           (Scenario.world_with Scenario.sh010 None)
           (Scenario.config_with (Some [7%Z]))
           (Scenario.event_with Scenario.project5 "attribute_change"
                                [Scenario.tag "sghs:hero"] [])
           (PStr "demo") (PInt 5) [7%Z]);
    try reflexivity.
  intros _. reflexivity.
Defined.

Lemma last_event_is_captured_first_witness :
  exists rest,
    fst (shothammer (Scenario.world_with Scenario.sh010 None)
                    (Scenario.config_with (Some [7%Z]))
                    (Scenario.event_with Scenario.project5 "attribute_change"
                                         [Scenario.tag "sghs:hero"] []))
    = ([EPprint (Scenario.event_with Scenario.project5 "attribute_change"
                                     [Scenario.tag "sghs:hero"] []);
        ELog EventLogger DEBUG "None";
        ELog EventLogger DEBUG "demo";
        EOpenDump "/var/tmp/last_event.pickle"
                  (Scenario.event_with Scenario.project5 "attribute_change"
                                       [Scenario.tag "sghs:hero"] [])]
         ++ rest)%list.
Proof.
  exact (last_event_is_captured_first
           (Scenario.world_with Scenario.sh010 None)
           (Scenario.config_with (Some [7%Z]))
           (Scenario.event_with Scenario.project5 "attribute_change"
                                [Scenario.tag "sghs:hero"] [])
           (PStr "demo") eq_refl eq_refl).
Defined.

(** The last-event file on a read-only file system. *)
Lemma last_event_write_failure_is_fatal_witness :
  snd (shothammer
         (Setting.world_of Scenario.work_shot_area Scenario.sh010
                           Setting.read_only)
         (Scenario.config_with (Some [5%Z]))
         (Scenario.event_with Scenario.project5 "attribute_change"
                              [Scenario.tag "sghs:hero"] []))
  = Raise (Exn OSError "Read-only file system").
Proof.
  exact (f_equal snd
           (last_event_write_failure_is_fatal
              (Setting.world_of Scenario.work_shot_area Scenario.sh010
                                Setting.read_only)
              (Scenario.config_with (Some [5%Z]))
              (Scenario.event_with Scenario.project5 "attribute_change"
                                   [Scenario.tag "sghs:hero"] [])
              (PStr "demo") (Exn OSError "Read-only file system")
              eq_refl eq_refl eq_refl)).
Defined.

(** A project entry without name: the KeyError reaches the caller. *)
Lemma missing_key_is_not_handled_witness :
  snd (shothammer (Scenario.world_with Scenario.sh010 None)
                  (Scenario.config_with (Some [5%Z]))
                  (Scenario.event_with Setting.nameless_project
                                       "attribute_change" [] []))
  = Raise (Exn KeyError "'name'").
Proof.
  exact (f_equal snd
           (missing_key_is_not_handled
              (Scenario.world_with Scenario.sh010 None)
              (Scenario.config_with (Some [5%Z]))
              (Scenario.event_with Setting.nameless_project
                                   "attribute_change" [] [])
              (Exn KeyError "'name'") eq_refl eq_refl)).
Defined.

(** No project and a numeric shot code. *)
Lemma null_project_makes_no_call_witness :
  shothammer (Scenario.world_with Scenario.sh010 None)
             (Scenario.config_with (Some [5%Z]))
             (Setting.event_named (PInt 42))
  = ([EPprint (Setting.event_named (PInt 42));
      ELog EventLogger DEBUG "None";
      ELog EventLogger WARNING "Project is none in event from shot 42"],
     Ret tt).
Proof.
  exact (proj2 (null_project_makes_no_call
                  (Scenario.world_with Scenario.sh010 None)
                  (Scenario.config_with (Some [5%Z]))
                  (Setting.event_named (PInt 42)) eq_refl)
               42%Z eq_refl).
Defined.

(** A template that answers the empty path. *)
Lemma false_path_issues_no_command_witness :
  commands (fst (shothammer
                   (Setting.world_of Setting.blank_template Scenario.sh010
                                     Setting.writable)
                   (Scenario.config_with (Some [5%Z]))
                   (Scenario.event_with Scenario.project5 "attribute_change"
                                        [Scenario.tag "sghs:hero"] [])))
  = []
  /\ snd (shothammer
            (Setting.world_of Setting.blank_template Scenario.sh010
                              Setting.writable)
            (Scenario.config_with (Some [5%Z]))
            (Scenario.event_with Scenario.project5 "attribute_change"
                                 [Scenario.tag "sghs:hero"] []))
     = Ret tt.
Proof.
  exact (false_path_issues_no_command
           (Setting.world_of Setting.blank_template Scenario.sh010
                             Setting.writable)
           (Scenario.config_with (Some [5%Z]))
           (Scenario.event_with Scenario.project5 "attribute_change"
                                [Scenario.tag "sghs:hero"] [])
           (PStr EmptyString)
           (conj (ex_intro _ (PStr "demo") eq_refl)
                 (ex_intro _ (PInt 5)
                    (ex_intro _ [5%Z] (conj eq_refl (conj eq_refl eq_refl)))))
           (fun _ => eq_refl) eq_refl eq_refl).
Defined.

(** An added entry without name, after a good one. *)
Lemma unreadable_added_tag_stops_everything_witness :
  commands (fst (shothammer
                   (Scenario.world_with Scenario.sh010 None)
                   (Scenario.config_with (Some [5%Z]))
                   (Scenario.event_with Scenario.project5 "attribute_change"
                                        [Scenario.tag "sghs:hero"; PDict []]
                                        [])))
  = []
  /\ snd (shothammer
            (Scenario.world_with Scenario.sh010 None)
            (Scenario.config_with (Some [5%Z]))
            (Scenario.event_with Scenario.project5 "attribute_change"
                                 [Scenario.tag "sghs:hero"; PDict []] []))
     = Raise (Exn KeyError "'name'").
Proof.
  exact (unreadable_added_tag_stops_everything
           (Scenario.world_with Scenario.sh010 None)
           (Scenario.config_with (Some [5%Z]))
           (Scenario.event_with Scenario.project5 "attribute_change"
                                [Scenario.tag "sghs:hero"; PDict []] [])
           (PStr "/proj/seq01/ep01/sh010")
           (conj (ex_intro _ (PStr "demo") eq_refl)
                 (ex_intro _ (PInt 5)
                    (ex_intro _ [5%Z] (conj eq_refl (conj eq_refl eq_refl)))))
           (fun _ => eq_refl) eq_refl eq_refl
           (Exn KeyError "'name'") eq_refl).
Defined.

(** A removed entry without name. *)
Lemma unreadable_removed_tags_keep_additions_witness :
  commands (fst (shothammer
                   (Scenario.world_with Scenario.sh010 None)
                   (Scenario.config_with (Some [5%Z]))
                   (Scenario.event_with Scenario.project5 "attribute_change"
                                        [Scenario.tag "sghs:hero"]
                                        [PDict []])))
  = ["hs keyword add sghs:hero /proj/seq01/ep01/sh010"]
  /\ snd (shothammer
            (Scenario.world_with Scenario.sh010 None)
            (Scenario.config_with (Some [5%Z]))
            (Scenario.event_with Scenario.project5 "attribute_change"
                                 [Scenario.tag "sghs:hero"] [PDict []]))
     = Raise (Exn KeyError "'name'").
Proof.
  exact (unreadable_removed_tags_keep_additions
           (Scenario.world_with Scenario.sh010 None)
           (Scenario.config_with (Some [5%Z]))
           (Scenario.event_with Scenario.project5 "attribute_change"
                                [Scenario.tag "sghs:hero"] [PDict []])
           (PStr "/proj/seq01/ep01/sh010")
           (conj (ex_intro _ (PStr "demo") eq_refl)
                 (ex_intro _ (PInt 5)
                    (ex_intro _ [5%Z] (conj eq_refl (conj eq_refl eq_refl)))))
           (fun _ => eq_refl) eq_refl eq_refl
           ["sghs:hero"] (Exn KeyError "'name'") eq_refl eq_refl).
Defined.

(** A tag whose name is [None], between two good ones. *)
Lemma non_string_tag_aborts_the_loop_witness :
  commands (fst (shothammer
                   (Scenario.world_with Scenario.sh010 None)
                   (Scenario.config_with (Some [5%Z]))
                   (Scenario.event_with Scenario.project5 "attribute_change"
                      [Scenario.tag "sghs:a"; PDict [("name", PNone)];
                       Scenario.tag "sghs:b"]
                      [Scenario.tag "sghs:c"])))
  = ["hs keyword add sghs:a /proj/seq01/ep01/sh010"].
Proof.
  exact (proj1 (non_string_tag_aborts_the_loop
           (Scenario.world_with Scenario.sh010 None)
           (Scenario.config_with (Some [5%Z]))
           (Scenario.event_with Scenario.project5 "attribute_change"
              [Scenario.tag "sghs:a"; PDict [("name", PNone)];
               Scenario.tag "sghs:b"]
              [Scenario.tag "sghs:c"])
           (PStr "/proj/seq01/ep01/sh010")
           (conj (ex_intro _ (PStr "demo") eq_refl)
                 (ex_intro _ (PInt 5)
                    (ex_intro _ [5%Z] (conj eq_refl (conj eq_refl eq_refl)))))
           (fun _ => eq_refl) eq_refl eq_refl
           ["sghs:a"] PNone [PStr "sghs:b"]
           (no_attribute PNone "startswith") eq_refl eq_refl)).
Defined.

(** A template that fails with a ValueError. *)
Lemma other_template_errors_propagate_witness :
  snd (bootstrap_engine_to_shot_path
         (Setting.world_of Setting.broken_template Scenario.sh010
                           Setting.writable)
         (Scenario.event_with Scenario.project5 "attribute_change" [] []))
  = Raise (Exn ValueError "bad template")
  /\ captures (fst (bootstrap_engine_to_shot_path
         (Setting.world_of Setting.broken_template Scenario.sh010
                           Setting.writable)
         (Scenario.event_with Scenario.project5 "attribute_change" [] [])))
     = [].
Proof.
  destruct (other_template_errors_propagate
              (Setting.world_of Setting.broken_template Scenario.sh010
                                Setting.writable)
              (Scenario.event_with Scenario.project5 "attribute_change" [] [])
              (PInt 9502) Setting.broken_template Scenario.sh010
              (PStr "sh010") (PStr "seq01") (PStr "ep01")
              (Exn ValueError "bad template")
              (conj eq_refl
                    (ex_intro _ _ (conj eq_refl (conj eq_refl eq_refl))))
              (conj eq_refl (conj eq_refl eq_refl))
              eq_refl eq_refl)
    as (Hraise & Hcap & _).
  exact (conj Hraise Hcap).
Defined.

(** The shot whose episode is the text [ep01]. *)
Lemma episode_that_is_no_link_is_dropped_witness :
  template_calls (fst (shothammer
                   (Scenario.world_with Setting.sh020 None)
                   (Scenario.config_with (Some [5%Z]))
                   (Scenario.event_with Scenario.project5 "attribute_change"
                                        [Scenario.tag "sghs:hero"] [])))
  = [field_map (PStr "sh020") (PStr "seq01") PNone].
Proof.
  apply (episode_that_is_no_link_is_dropped
           (Scenario.world_with Setting.sh020 None)
           (Scenario.config_with (Some [5%Z]))
           (Scenario.event_with Scenario.project5 "attribute_change"
                                [Scenario.tag "sghs:hero"] [])
           (PInt 9502) Scenario.work_shot_area Setting.sh020_fields
           (PStr "sh020") (PStr "seq01") (PStr "ep01")
           (conj (ex_intro _ (PStr "demo") eq_refl)
                 (ex_intro _ (PInt 5)
                    (ex_intro _ [5%Z] (conj eq_refl (conj eq_refl eq_refl)))))
           (fun _ => eq_refl)
           (conj eq_refl
                 (ex_intro _ (Scenario.engine_with Setting.sh020)
                    (conj eq_refl (conj eq_refl eq_refl))))
           eq_refl eq_refl eq_refl).
  discriminate.
Defined.

(** The shot code [ep01_seq01_sh010]. *)
Lemma episode_code_is_the_first_part_witness :
  exists episode,
    snd (get_episode_code (Setting.event_named (PStr "ep01_seq01_sh010")))
    = Ret (PStr episode)
    /\ contains_char "_" episode = false
    /\ ("ep01_seq01_sh010" = episode
        \/ exists rest, "ep01_seq01_sh010" = episode ++ "_" ++ rest)
    /\ calls (fst (get_episode_code
                     (Setting.event_named (PStr "ep01_seq01_sh010")))) = [].
Proof.
  exact (episode_code_is_the_first_part
           (Setting.event_named (PStr "ep01_seq01_sh010"))
           "ep01_seq01_sh010" eq_refl).
Defined.
